(** * NaturewatchCameraServer: the camera controller and the start-up handler

    A shallow embedding of [naturewatch_camera_server/CameraController.py]
    and [naturewatch_camera_server/__main__.py].

    Python values are an inductive type [pyval]; the configuration dict is a
    finite map from strings to [pyval]; the controller object is a record
    whose fields are the attributes the source assigns; methods are
    computations in a state-and-exception monad over that record.  Everything
    outside the interpreter (the camera driver, GPIO, the file system, the
    clock, subprocesses) is driven by an [environment] that decides, for the
    n-th external call, whether it raises and what it returns; every external
    call is recorded in a trace. *)

From Stdlib Require Import ZArith Lia List Bool Ascii String Sorted QArith.
From Stdlib Require Import Floats.SpecFloat.
From stdpp Require Import base option list gmap strings.

Local Open Scope string_scope.
Local Open Scope Z_scope.

(** ** Exceptions and results *)

Inductive exn_class : Type :=
  | KeyError
  | AttributeError
  | IndexError
  | TypeError
  | ValueError
  | ZeroDivisionError
  | OverflowError
  | OSError
  | RuntimeError
  | Cv2Error
  | NameError
  | KeyboardInterrupt
  | CameraNotFoundException.

(** [except Exception] catches every class but [KeyboardInterrupt], which
    derives from [BaseException] only. *)
Definition is_Exception (c : exn_class) : bool :=
  match c with
  | KeyboardInterrupt => false
  | _ => true
  end.

Record exn : Type := Exn { exn_cls : exn_class; exn_msg : string }.

(** A call returns, raises, or (for a loop of the model run with too little
    fuel) is cut short. *)
Inductive result (A : Type) : Type :=
  | Ok (a : A)
  | Raise (e : exn)
  | OutOfFuel.
Arguments Ok {A} a.
Arguments Raise {A} e.
Arguments OutOfFuel {A}.

Definition rbind {A B : Type} (r : result A) (k : A → result B) : result B :=
  match r with
  | Ok a => k a
  | Raise e => Raise e
  | OutOfFuel => OutOfFuel
  end.

(** ** Lists: indexing and [bisect.bisect_left] *)

(** [l[i]] with Python's negative indices. *)
Definition py_index (l : list Z) (i : Z) : result Z :=
  let n := Z.of_nat (length l) in
  let j := if i <? 0 then i + n else i in
  if (j <? 0) || (n <=? j) then Raise (Exn IndexError "list index out of range")
  else match l !! Z.to_nat j with
       | Some v => Ok v
       | None => Raise (Exn IndexError "list index out of range")
       end.

(** The loop of [bisect_left(a, x)]:
    [while lo < hi: mid = (lo + hi) // 2; if a[mid] < x: lo = mid + 1 else: hi = mid]. *)
Fixpoint bisect_left_loop (fuel : nat) (a : list Z) (x : Z) (lo hi : nat)
  : result nat :=
  if bool_decide (lo < hi)%nat then
    match fuel with
    | O => OutOfFuel
    | S fuel' =>
        let mid := ((lo + hi) / 2)%nat in
        rbind (py_index a (Z.of_nat mid)) (fun v =>
        if v <? x then bisect_left_loop fuel' a x (mid + 1)%nat hi
        else bisect_left_loop fuel' a x lo mid)
    end
  else Ok lo.

(** [lo = 0], [hi = len(a)]; the interval halves at each turn, so [len(a)]
    turns are more than the loop ever takes. *)
Definition bisect_left (a : list Z) (x : Z) : result nat :=
  bisect_left_loop (length a) a x 0 (length a).

(** [CameraController.find_closest_exposure] *)
Definition find_closest_exposure (ExpList : list Z) (ExpValue : Z) : result Z :=
  rbind (bisect_left ExpList ExpValue) (fun pos =>
  if bool_decide (pos = 0%nat) then py_index ExpList 0
  else if bool_decide (pos = length ExpList) then py_index ExpList (-1)
  else
    rbind (py_index ExpList (Z.of_nat pos - 1)) (fun before =>
    rbind (py_index ExpList (Z.of_nat pos)) (fun after =>
    if after - ExpValue <? ExpValue - before then Ok after else Ok before))).

(** The preset table of [get_MetaData]. *)
Definition ExpList : list Z :=
  [250; 313; 400; 500; 625; 800; 1000; 1250; 1563; 2000; 2500; 3125; 4000;
   5000; 6250; 8000; 10000; 12500; 16666; 20000; 25000; 33333].


(** ** Python values *)

(** binary64: 53 bits of precision, exponents below 1024. *)
Definition prec64 : Z := 53.
Definition emax64 : Z := 1024.

Inductive pyval : Type :=
  | PNone
  | PBool (b : bool)
  | PInt (n : Z)
  | PFloat (f : spec_float)
  | PStr (s : string).

#[global] Instance spec_float_eq_dec : EqDecision spec_float.
Proof. solve_decision. Defined.
#[global] Instance pyval_eq_dec : EqDecision pyval.
Proof. solve_decision. Defined.
#[global] Instance exn_class_eq_dec : EqDecision exn_class.
Proof. solve_decision. Defined.
#[global] Instance exn_eq_dec : EqDecision exn.
Proof. solve_decision. Defined.

(** [float(n)] for an int: round to nearest even, [OverflowError] beyond the
    finite range. *)
Definition float_of_Z (n : Z) : result spec_float :=
  match binary_normalize prec64 emax64 n 0 false with
  | S754_infinity _ => Raise (Exn OverflowError "int too large to convert to float")
  | f => Ok f
  end.

(** The literal [0.5]. *)
Definition float_half : spec_float := S754_finite false 4503599627370496 (-53).

(** Bools are ints; an operand that is neither a bool, an int nor a float is
    not a number. *)
Inductive number : Type :=
  | NInt (n : Z)
  | NFloat (f : spec_float).

Definition as_number (v : pyval) : option number :=
  match v with
  | PBool b => Some (NInt (if b then 1 else 0))
  | PInt n => Some (NInt n)
  | PFloat f => Some (NFloat f)
  | _ => None
  end.

Definition to_float (x : number) : result spec_float :=
  match x with
  | NInt n => float_of_Z n
  | NFloat f => Ok f
  end.

Definition unsupported (op : string) : exn :=
  Exn TypeError ("unsupported operand type(s) for " ++ op).

(** [a + b] *)
Definition py_add (a b : pyval) : result pyval :=
  match a, b with
  | PStr s, PStr t => Ok (PStr (s ++ t))
  | _, _ =>
      match as_number a, as_number b with
      | Some (NInt m), Some (NInt n) => Ok (PInt (m + n))
      | Some x, Some y =>
          rbind (to_float x) (fun fx =>
          rbind (to_float y) (fun fy =>
          Ok (PFloat (SFadd prec64 emax64 fx fy))))
      | _, _ => Raise (unsupported "+")
      end
  end.

(** [a * b] on numbers.  (Sequence repetition, [str * int], is left out: the
    only product of the source has a float on its right.) *)
Definition py_mul (a b : pyval) : result pyval :=
  match as_number a, as_number b with
  | Some (NInt m), Some (NInt n) => Ok (PInt (m * n))
  | Some x, Some y =>
      rbind (to_float x) (fun fx =>
      rbind (to_float y) (fun fy =>
      Ok (PFloat (SFmul prec64 emax64 fx fy))))
  | _, _ => Raise (unsupported "*")
  end.

Definition float_is_zero (f : spec_float) : bool :=
  match f with
  | S754_zero _ => true
  | _ => false
  end.

(** [a / b]: true division, always a float.  (For ints beyond 2^53 Python
    rounds the exact quotient once; here both operands are converted first.) *)
Definition py_truediv (a b : pyval) : result pyval :=
  match as_number a, as_number b with
  | Some x, Some y =>
      rbind (to_float x) (fun fx =>
      rbind (to_float y) (fun fy =>
      if float_is_zero fy then Raise (Exn ZeroDivisionError "division by zero")
      else Ok (PFloat (SFdiv prec64 emax64 fx fy))))
  | _, _ => Raise (unsupported "/")
  end.

(** [int(f)] for a float: truncation toward zero. *)
Definition float_trunc (f : spec_float) : result Z :=
  match f with
  | S754_zero _ => Ok 0
  | S754_finite s m e =>
      Ok (cond_Zopp s (if 0 <=? e then Zpos m * 2 ^ e else Zpos m / 2 ^ (- e)))
  | S754_infinity _ =>
      Raise (Exn OverflowError "cannot convert float infinity to integer")
  | S754_nan => Raise (Exn ValueError "cannot convert float NaN to integer")
  end.

(** Strings: [str.strip], [in], and the decimal literals [int(s)] accepts. *)
Definition is_space (c : ascii) : bool :=
  let n := nat_of_ascii c in
  bool_decide (n = 32%nat) || (bool_decide (9 ≤ n)%nat && bool_decide (n ≤ 13)%nat).

Fixpoint lstrip (s : string) : string :=
  match s with
  | String c t => if is_space c then lstrip t else s
  | EmptyString => s
  end.

Fixpoint str_rev_app (s acc : string) : string :=
  match s with
  | EmptyString => acc
  | String c t => str_rev_app t (String c acc)
  end.

Definition str_rev (s : string) : string := str_rev_app s EmptyString.

Definition py_strip (s : string) : string :=
  str_rev (lstrip (str_rev (lstrip s))).

(** [needle in hay] *)
Fixpoint str_contains (needle hay : string) : bool :=
  String.prefix needle hay ||
  match hay with
  | EmptyString => false
  | String _ t => str_contains needle t
  end.

Definition digit_val (c : ascii) : option Z :=
  let n := nat_of_ascii c in
  if bool_decide (48 ≤ n)%nat && bool_decide (n ≤ 57)%nat
  then Some (Z.of_nat n - 48) else None.

(** Digits, with single underscores between digits. *)
Fixpoint parse_digits (s : string) (acc : Z) (after_digit : bool) : option Z :=
  match s with
  | EmptyString => if after_digit then Some acc else None
  | String c t =>
      match digit_val c with
      | Some d => parse_digits t (10 * acc + d) true
      | None =>
          if after_digit && bool_decide (nat_of_ascii c = 95%nat)
          then parse_digits t acc false else None
      end
  end.

Definition parse_int (s : string) : option Z :=
  match py_strip s with
  | String "-" t => Z.opp <$> parse_digits t 0 false
  | String "+" t => parse_digits t 0 false
  | t => parse_digits t 0 false
  end.

(** [int(v)] *)
Definition py_int (v : pyval) : result Z :=
  match v with
  | PBool b => Ok (if b then 1 else 0)
  | PInt n => Ok n
  | PFloat f => float_trunc f
  | PStr s =>
      match parse_int s with
      | Some n => Ok n
      | None => Raise (Exn ValueError "invalid literal for int() with base 10")
      end
  | PNone => Raise (Exn TypeError "int() argument must be a string or a number")
  end.

(** [f == n] for a float and an int, compared exactly. *)
Definition float_eq_Z (f : spec_float) (n : Z) : bool :=
  match f with
  | S754_zero _ => n =? 0
  | S754_finite s m e =>
      let v := cond_Zopp s (Zpos m) in
      if 0 <=? e then v * 2 ^ e =? n else v =? n * 2 ^ (- e)
  | _ => false
  end.

(** [a == b] *)
Definition py_eq (a b : pyval) : bool :=
  match a, b with
  | PNone, PNone => true
  | PStr s, PStr t => bool_decide (s = t)
  | _, _ =>
      match as_number a, as_number b with
      | Some (NInt m), Some (NInt n) => m =? n
      | Some (NFloat f), Some (NInt n) => float_eq_Z f n
      | Some (NInt m), Some (NFloat g) => float_eq_Z g m
      | Some (NFloat f), Some (NFloat g) => SFeqb f g
      | _, _ => false
      end
  end.

(** [v is True] *)
Definition py_is_True (v : pyval) : bool :=
  match v with
  | PBool true => true
  | _ => false
  end.

(** Truth value of an object in a condition. *)
Definition py_truthy (v : pyval) : bool :=
  match v with
  | PNone => false
  | PBool b => b
  | PInt n => negb (n =? 0)
  | PFloat f => negb (float_is_zero f)
  | PStr s => negb (bool_decide (s = ""))
  end.

(** ** The world outside the interpreter *)

(** A numpy array: its pixel data.  Arrays live in a heap and are known by
    their address, so that two names for one array see each other's writes. *)
Definition frame : Type := list Z.
Definition loc : Type := nat.
Definition dict_ref : Type := nat.

(** What [create_video_configuration] is given. *)
Record video_config : Type := VideoConfig {
  vc_main : option (Z * Z);
  vc_lores : option (Z * Z);
  vc_flip : pyval;
  vc_frame_duration : option (Z * Z)
}.

(** The attributes the source sets on the [Picamera2] object. *)
Record camera_obj : Type := Camera {
  cam_id : nat;
  lsize : option (Z * Z);
  mainsize : option (Z * Z);
  rotation : option Z;
  pre_callback : bool
}.

(** Calls that leave the interpreter, in the order they are made. *)
Inductive event : Type :=
  | GpioSetmode
  | GpioSetwarnings
  | GpioSetup (pin : Z)
  | GpioOutput (pin : Z) (level : bool)
  | CamNew
  | CamProperties (id : nat) (key : string)
  | CamClose (id : nat)
  | CamStart (id : nat)
  | CamStop (id : nat)
  | CamStartEncoder (id : nat)
  | CamStopEncoder (id : nat)
  | CamCreateVideoConfiguration (id : nat) (cfg : video_config)
  | CamConfigure (id : nat) (cfg : video_config)
  | CamSetControls (id : nat) (ctl : list (string * pyval))
  | CamCaptureArray (id : nat)
  | CamCaptureMetadata (id : nat)
  | CamAutofocusCycle (id : nat)
  | CvtColor (src : loc)
  | PutText (dst : loc) (text : string)
  | Imencode
  | Strftime
  | Sleep (millis : Z)
  | FileOpenW (path : string)
  | FileWrite (path : string) (contents : gmap string pyval)
  | Subprocess (argv : list string)
  | NewEncoder (buffersize : Z).

(** A configuration file: cut to length zero by [open(path, 'w')], then
    holding the JSON text of a dict.  The text is kept as the dict it
    denotes: [json.loads] of [json.dumps] of a dict of strings to [pyval]
    gives the dict back. *)
Inductive file : Type :=
  | Truncated
  | Json (contents : gmap string pyval).

Inductive log_level : Type := DEBUG | INFO | WARNING | ERROR.

Inductive log_entry : Type :=
  | Log (level : log_level) (msg : string) (args : list pyval)
  | LogException (e : exn).

(** The environment: which names the module-level [try: import] bound, and
    what the n-th external call does. *)
Record environment : Type := Environment {
  picamera_exists : bool;
  encoders_imported : bool;
  module_path : string;
  fault : nat → option exn;
  sensor_model : nat → string;
  pixel_array_size : nat → pyval;
  metadata_frame_duration : nat → pyval;
  lores_frame : nat → frame;
  focus_result : nat → bool;
  clock : nat → string;
  cvt_color : frame → frame;
  put_text : frame → string → frame;
  imencode : frame → list Z
}.

(** ** The controller *)

(** The attributes of [self] that the methods below read, then the dict and
    array objects, the files, the trace of external calls (latest first) and
    the log (latest first). *)
Record state : Type := State {
  stop_event : bool;
  config : dict_ref;
  resolution : pyval;
  width : Z;
  height : Z;
  md_width : Z;
  md_height : Z;
  LED : pyval;
  timestamp : Z;
  sharpness_mode : pyval;
  sharpness_val : Z;
  camera : option camera_obj;
  rotated_camera : pyval;
  af_enabled : bool;
  image : option loc;
  exposure_mode : option string;
  video_buffer_size : option Z;
  dicts : gmap dict_ref (gmap string pyval);
  heap : gmap loc frame;
  files : gmap string file;
  trace : list event;
  log : list log_entry
}.

Definition with_stop_event (v : bool) (s : state) : state :=
  State (v) (config s) (resolution s) (width s) (height s) (md_width s)
    (md_height s) (LED s) (timestamp s) (sharpness_mode s) (sharpness_val s)
    (camera s) (rotated_camera s) (af_enabled s) (image s) (exposure_mode s)
    (video_buffer_size s) (dicts s) (heap s) (files s) (trace s) (log s).
Definition with_config (v : dict_ref) (s : state) : state :=
  State (stop_event s) (v) (resolution s) (width s) (height s) (md_width s)
    (md_height s) (LED s) (timestamp s) (sharpness_mode s) (sharpness_val s)
    (camera s) (rotated_camera s) (af_enabled s) (image s) (exposure_mode s)
    (video_buffer_size s) (dicts s) (heap s) (files s) (trace s) (log s).
Definition with_resolution (v : pyval) (s : state) : state :=
  State (stop_event s) (config s) (v) (width s) (height s) (md_width s)
    (md_height s) (LED s) (timestamp s) (sharpness_mode s) (sharpness_val s)
    (camera s) (rotated_camera s) (af_enabled s) (image s) (exposure_mode s)
    (video_buffer_size s) (dicts s) (heap s) (files s) (trace s) (log s).
Definition with_width (v : Z) (s : state) : state :=
  State (stop_event s) (config s) (resolution s) (v) (height s) (md_width s)
    (md_height s) (LED s) (timestamp s) (sharpness_mode s) (sharpness_val s)
    (camera s) (rotated_camera s) (af_enabled s) (image s) (exposure_mode s)
    (video_buffer_size s) (dicts s) (heap s) (files s) (trace s) (log s).
Definition with_height (v : Z) (s : state) : state :=
  State (stop_event s) (config s) (resolution s) (width s) (v) (md_width s)
    (md_height s) (LED s) (timestamp s) (sharpness_mode s) (sharpness_val s)
    (camera s) (rotated_camera s) (af_enabled s) (image s) (exposure_mode s)
    (video_buffer_size s) (dicts s) (heap s) (files s) (trace s) (log s).
Definition with_md_width (v : Z) (s : state) : state :=
  State (stop_event s) (config s) (resolution s) (width s) (height s) (v)
    (md_height s) (LED s) (timestamp s) (sharpness_mode s) (sharpness_val s)
    (camera s) (rotated_camera s) (af_enabled s) (image s) (exposure_mode s)
    (video_buffer_size s) (dicts s) (heap s) (files s) (trace s) (log s).
Definition with_md_height (v : Z) (s : state) : state :=
  State (stop_event s) (config s) (resolution s) (width s) (height s)
    (md_width s) (v) (LED s) (timestamp s) (sharpness_mode s) (sharpness_val
    s) (camera s) (rotated_camera s) (af_enabled s) (image s) (exposure_mode
    s) (video_buffer_size s) (dicts s) (heap s) (files s) (trace s) (log s).
Definition with_LED (v : pyval) (s : state) : state :=
  State (stop_event s) (config s) (resolution s) (width s) (height s)
    (md_width s) (md_height s) (v) (timestamp s) (sharpness_mode s)
    (sharpness_val s) (camera s) (rotated_camera s) (af_enabled s) (image s)
    (exposure_mode s) (video_buffer_size s) (dicts s) (heap s) (files s)
    (trace s) (log s).
Definition with_timestamp (v : Z) (s : state) : state :=
  State (stop_event s) (config s) (resolution s) (width s) (height s)
    (md_width s) (md_height s) (LED s) (v) (sharpness_mode s) (sharpness_val
    s) (camera s) (rotated_camera s) (af_enabled s) (image s) (exposure_mode
    s) (video_buffer_size s) (dicts s) (heap s) (files s) (trace s) (log s).
Definition with_sharpness_mode (v : pyval) (s : state) : state :=
  State (stop_event s) (config s) (resolution s) (width s) (height s)
    (md_width s) (md_height s) (LED s) (timestamp s) (v) (sharpness_val s)
    (camera s) (rotated_camera s) (af_enabled s) (image s) (exposure_mode s)
    (video_buffer_size s) (dicts s) (heap s) (files s) (trace s) (log s).
Definition with_sharpness_val (v : Z) (s : state) : state :=
  State (stop_event s) (config s) (resolution s) (width s) (height s)
    (md_width s) (md_height s) (LED s) (timestamp s) (sharpness_mode s) (v)
    (camera s) (rotated_camera s) (af_enabled s) (image s) (exposure_mode s)
    (video_buffer_size s) (dicts s) (heap s) (files s) (trace s) (log s).
Definition with_camera (v : option camera_obj) (s : state) : state :=
  State (stop_event s) (config s) (resolution s) (width s) (height s)
    (md_width s) (md_height s) (LED s) (timestamp s) (sharpness_mode s)
    (sharpness_val s) (v) (rotated_camera s) (af_enabled s) (image s)
    (exposure_mode s) (video_buffer_size s) (dicts s) (heap s) (files s)
    (trace s) (log s).
Definition with_rotated_camera (v : pyval) (s : state) : state :=
  State (stop_event s) (config s) (resolution s) (width s) (height s)
    (md_width s) (md_height s) (LED s) (timestamp s) (sharpness_mode s)
    (sharpness_val s) (camera s) (v) (af_enabled s) (image s) (exposure_mode
    s) (video_buffer_size s) (dicts s) (heap s) (files s) (trace s) (log s).
Definition with_af_enabled (v : bool) (s : state) : state :=
  State (stop_event s) (config s) (resolution s) (width s) (height s)
    (md_width s) (md_height s) (LED s) (timestamp s) (sharpness_mode s)
    (sharpness_val s) (camera s) (rotated_camera s) (v) (image s)
    (exposure_mode s) (video_buffer_size s) (dicts s) (heap s) (files s)
    (trace s) (log s).
Definition with_image (v : option loc) (s : state) : state :=
  State (stop_event s) (config s) (resolution s) (width s) (height s)
    (md_width s) (md_height s) (LED s) (timestamp s) (sharpness_mode s)
    (sharpness_val s) (camera s) (rotated_camera s) (af_enabled s) (v)
    (exposure_mode s) (video_buffer_size s) (dicts s) (heap s) (files s)
    (trace s) (log s).
Definition with_exposure_mode (v : option string) (s : state) : state :=
  State (stop_event s) (config s) (resolution s) (width s) (height s)
    (md_width s) (md_height s) (LED s) (timestamp s) (sharpness_mode s)
    (sharpness_val s) (camera s) (rotated_camera s) (af_enabled s) (image s)
    (v) (video_buffer_size s) (dicts s) (heap s) (files s) (trace s) (log s).
Definition with_video_buffer_size (v : option Z) (s : state) : state :=
  State (stop_event s) (config s) (resolution s) (width s) (height s)
    (md_width s) (md_height s) (LED s) (timestamp s) (sharpness_mode s)
    (sharpness_val s) (camera s) (rotated_camera s) (af_enabled s) (image s)
    (exposure_mode s) (v) (dicts s) (heap s) (files s) (trace s) (log s).
Definition with_dicts (v : gmap dict_ref (gmap string pyval)) (s : state) : state :=
  State (stop_event s) (config s) (resolution s) (width s) (height s)
    (md_width s) (md_height s) (LED s) (timestamp s) (sharpness_mode s)
    (sharpness_val s) (camera s) (rotated_camera s) (af_enabled s) (image s)
    (exposure_mode s) (video_buffer_size s) (v) (heap s) (files s) (trace s)
    (log s).
Definition with_heap (v : gmap loc frame) (s : state) : state :=
  State (stop_event s) (config s) (resolution s) (width s) (height s)
    (md_width s) (md_height s) (LED s) (timestamp s) (sharpness_mode s)
    (sharpness_val s) (camera s) (rotated_camera s) (af_enabled s) (image s)
    (exposure_mode s) (video_buffer_size s) (dicts s) (v) (files s) (trace s)
    (log s).
Definition with_files (v : gmap string file) (s : state) : state :=
  State (stop_event s) (config s) (resolution s) (width s) (height s)
    (md_width s) (md_height s) (LED s) (timestamp s) (sharpness_mode s)
    (sharpness_val s) (camera s) (rotated_camera s) (af_enabled s) (image s)
    (exposure_mode s) (video_buffer_size s) (dicts s) (heap s) (v) (trace s)
    (log s).
Definition with_trace (v : list event) (s : state) : state :=
  State (stop_event s) (config s) (resolution s) (width s) (height s)
    (md_width s) (md_height s) (LED s) (timestamp s) (sharpness_mode s)
    (sharpness_val s) (camera s) (rotated_camera s) (af_enabled s) (image s)
    (exposure_mode s) (video_buffer_size s) (dicts s) (heap s) (files s) (v)
    (log s).
Definition with_log (v : list log_entry) (s : state) : state :=
  State (stop_event s) (config s) (resolution s) (width s) (height s)
    (md_width s) (md_height s) (LED s) (timestamp s) (sharpness_mode s)
    (sharpness_val s) (camera s) (rotated_camera s) (af_enabled s) (image s)
    (exposure_mode s) (video_buffer_size s) (dicts s) (heap s) (files s)
    (trace s) (v).

(** The dict a reference points to, and the array at an address. *)
Definition dict_contents (s : state) (r : dict_ref) : gmap string pyval :=
  default ∅ (dicts s !! r).

Definition array_contents (s : state) (l : loc) : frame :=
  match heap s !! l with
  | Some data => data
  | None => []
  end.

(** ** Computations: state and exceptions *)

Definition M (A : Type) : Type := state → result A * state.

#[global] Instance M_ret : MRet M := λ A a s, (Ok a, s).

#[global] Instance M_bind : MBind M := λ A B k m s,
  match m s with
  | (Ok a, s') => k a s'
  | (Raise e, s') => (Raise e, s')
  | (OutOfFuel, s') => (OutOfFuel, s')
  end.

Definition raise {A : Type} (e : exn) : M A := λ s, (Raise e, s).
Definition lift {A : Type} (r : result A) : M A := λ s, (r, s).
Definition gets {A : Type} (f : state → A) : M A := λ s, (Ok (f s), s).
Definition modify (f : state → state) : M unit := λ s, (Ok tt, f s).

(** [try: body  except <classes> as e: handler e] *)
Definition try_except {A : Type} (body : M A) (catches : exn_class → bool)
    (handler : exn → M A) : M A := λ s,
  match body s with
  | (Raise e, s') => if catches (exn_cls e) then handler e s' else (Raise e, s')
  | r => r
  end.

Definition logger (level : log_level) (msg : string) (args : list pyval) : M unit :=
  modify (λ s, with_log (Log level msg args :: log s) s).

Definition logger_exception (e : exn) : M unit :=
  modify (λ s, with_log (LogException e :: log s) s).

(** [posixpath.join] *)
Definition starts_with_slash (s : string) : bool :=
  match s with
  | String c _ => bool_decide (nat_of_ascii c = 47%nat)
  | EmptyString => false
  end.

Definition path_join2 (a b : string) : string :=
  if starts_with_slash b then b
  else if bool_decide (a = "") || starts_with_slash (str_rev a) then a ++ b
  else a ++ "/" ++ b.

Definition os_path_join (a : string) (ps : list string) : string :=
  fold_left path_join2 ps a.

(** [d[k]] and [d[k] = v] on the dict a reference points to. *)
Definition dict_get (r : dict_ref) (k : string) : M pyval := λ s,
  match dict_contents s r !! k with
  | Some v => (Ok v, s)
  | None => (Raise (Exn KeyError k), s)
  end.

Definition dict_set (r : dict_ref) (k : string) (v : pyval) : M unit :=
  modify (λ s, with_dicts (<[r := <[k := v]> (dict_contents s r)]> (dicts s)) s).

(** A new array. *)
Definition alloc (f : frame) : M loc := λ s,
  let l := fresh (dom (heap s)) in
  (Ok l, with_heap (<[l := f]> (heap s)) s).

Section Controller.

Variable env : environment.

(** An external call: it is recorded, and it raises when the environment
    says that this call does.  Its number selects what it returns. *)
Definition ext (ev : event) : M nat := λ s,
  let n := length (trace s) in
  let s' := with_trace (ev :: trace s) s in
  match fault env n with
  | Some e => (Raise e, s')
  | None => (Ok n, s')
  end.

(** [self.config[k]] *)
Definition config_get (k : string) : M pyval :=
  cfg ← gets config; dict_get cfg k.

(** [self.camera.<attr>]: the camera object, or the error of [None.<attr>]. *)
Definition the_camera (attr : string) : M camera_obj := λ s,
  match camera s with
  | Some c => (Ok c, s)
  | None =>
      (Raise (Exn AttributeError
                ("'NoneType' object has no attribute '" ++ attr ++ "'")), s)
  end.

(** An attribute of the camera object that the source itself has set. *)
Definition cam_attr {A : Type} (attr : string) (o : option A) : M A :=
  match o with
  | Some v => mret v
  | None =>
      raise (Exn AttributeError
               ("'Picamera2' object has no attribute '" ++ attr ++ "'"))
  end.

(** [os.path.join(module_path, self.config["data_path"], 'config.json')] *)
Definition config_path : M string :=
  dp ← config_get "data_path";
  match dp with
  | PStr d => mret (os_path_join (module_path env) [d; "config.json"])
  | _ => raise (Exn TypeError "expected str, bytes or os.PathLike object")
  end.

(** [update_config(new_config, config_path)]: open for writing, dump the
    dict the reference points to, write, return the reference. *)
Definition update_config (new_config : dict_ref) (path : string) : M dict_ref :=
  _ ← ext (FileOpenW path);
  modify (λ s, with_files (<[path := Truncated]> (files s)) s);;
  contents ← gets (λ s, dict_contents s new_config);
  _ ← ext (FileWrite path contents);
  modify (λ s, with_files (<[path := Json contents]> (files s)) s);;
  mret new_config.

(** The tail every setter ends with:
    [self.config = self.update_config(new_config, os.path.join(...))]. *)
Definition persist (new_config : dict_ref) : M unit :=
  path ← config_path;
  r ← update_config new_config path;
  modify (with_config r).

(** The camera reconfiguration of [set_camera_rotation]. *)
Definition reconfigure_rotation (angle : Z) : M unit :=
  cam ← the_camera "rotation";
  modify (with_camera (Some (Camera (cam_id cam) (lsize cam) (mainsize cam)
                               (Some angle) (pre_callback cam))));;
  cam ← the_camera "stop";
  _ ← ext (CamStop (cam_id cam));
  cam ← the_camera "create_video_configuration";
  main ← cam_attr "mainsize" (mainsize cam);
  lores ← cam_attr "lsize" (lsize cam);
  flip ← gets rotated_camera;
  let video_config := VideoConfig (Some main) (Some lores) flip None in
  _ ← ext (CamCreateVideoConfiguration (cam_id cam) video_config);
  cam ← the_camera "configure";
  _ ← ext (CamConfigure (cam_id cam) video_config);
  cam ← the_camera "start";
  _ ← ext (CamStart (cam_id cam));
  mret tt.

Definition set_camera_rotation (rotation : pyval) : M unit :=
  current ← gets rotated_camera;
  if negb (py_eq current rotation) then
    modify (with_rotated_camera rotation);;
    now ← gets rotated_camera;
    if py_is_True now then
      (if picamera_exists env then reconfigure_rotation 180 else mret tt);;
      new_config ← gets config;
      dict_set new_config "rotate_camera" (PInt 1);;
      persist new_config
    else
      (if picamera_exists env then reconfigure_rotation 0 else mret tt);;
      new_config ← gets config;
      dict_set new_config "rotate_camera" (PInt 0);;
      persist new_config
  else mret tt.

Definition set_exposure (ExposureTime AnalogueGain : pyval) : M unit :=
  if picamera_exists env then
    cam ← the_camera "set_controls";
    _ ← ext (CamSetControls (cam_id cam)
               [("ExposureTime", ExposureTime); ("AnalogueGain", AnalogueGain);
                ("AwbMode", PStr "Auto")]);
    modify (with_exposure_mode (Some "off"));;
    _ ← ext (Sleep 500);
    new_config ← gets config;
    dict_set new_config "shutter_speed" ExposureTime;;
    dict_set new_config "exposure_mode" (PStr "off");;
    persist new_config
  else mret tt.

Definition auto_exposure : M unit :=
  if picamera_exists env then
    modify (with_exposure_mode (Some "auto"));;
    cam ← the_camera "set_controls";
    _ ← ext (CamSetControls (cam_id cam)
               [("ExposureTime", PInt 0); ("AnalogueGain", PInt 0);
                ("AwbMode", PStr "Auto")]);
    new_config ← gets config;
    dict_set new_config "exposure_mode" (PStr "auto");;
    persist new_config
  else mret tt.

Definition restart_service : M unit :=
  _ ← ext (Subprocess ["sudo"; "systemctl"; "restart"; "python.naturewatch.service"]);
  mret tt.

Definition set_resolution (resolution' : pyval) : M unit :=
  current ← gets resolution;
  if negb (py_eq current resolution') then
    modify (with_resolution resolution');;
    if py_eq resolution' (PStr "1640x1232") then
      new_config ← gets config;
      dict_set new_config "resolution" (PStr "1640x1232");;
      dict_set new_config "img_height" (PInt 1232);;
      dict_set new_config "img_width" (PInt 1640);;
      persist new_config;;
      restart_service
    else
      new_config ← gets config;
      dict_set new_config "resolution" (PStr "1920x1080");;
      dict_set new_config "img_height" (PInt 1080);;
      dict_set new_config "img_width" (PInt 1920);;
      persist new_config;;
      restart_service
  else mret tt.

Definition set_LED (LED' : pyval) : M unit :=
  current ← gets LED;
  if negb (py_eq current LED') then
    modify (with_LED LED');;
    if py_eq LED' (PStr "off") then
      _ ← ext (GpioOutput 16 false);
      logger DEBUG "CameraController: LED disabled" [];;
      new_config ← gets config;
      dict_set new_config "LED" (PStr "off");;
      persist new_config
    else
      _ ← ext (GpioOutput 16 true);
      logger DEBUG "CameraController: LED enabled" [];;
      new_config ← gets config;
      dict_set new_config "LED" (PStr "on");;
      persist new_config
  else mret tt.

Definition set_TimestampMode (timestamp' : pyval) : M unit :=
  if py_eq timestamp' (PStr "off") then
    modify (with_timestamp 0);;
    logger DEBUG "CameraController: Timestamps disabled" [];;
    new_config ← gets config;
    dict_set new_config "timestamp" (PStr "off");;
    persist new_config
  else
    modify (with_timestamp 1);;
    logger DEBUG "CameraController: Timestamps enabled" [];;
    new_config ← gets config;
    dict_set new_config "timestamp" (PStr "on");;
    persist new_config.

Definition set_sharpness (sharpness_val' sharpness_mode' : pyval) : M unit :=
  modify (with_sharpness_mode sharpness_mode');;
  mode ← gets sharpness_mode;
  sharpness_val' ←
    (if py_eq mode (PStr "auto") then mret (PInt 1)
     else n ← lift (py_int sharpness_val');
          modify (with_sharpness_val n);;
          mret sharpness_val');
  cam ← the_camera "set_controls";
  _ ← ext (CamSetControls (cam_id cam) [("Sharpness", sharpness_val')]);
  logger DEBUG "CameraController: Sharpness set to {}" [sharpness_val'];;
  new_config ← gets config;
  dict_set new_config "sharpness_val" sharpness_val';;
  dict_set new_config "sharpness_mode" sharpness_mode';;
  persist new_config.

Definition stop : M unit :=
  modify (with_stop_event true);;
  (if picamera_exists env then
     cam ← the_camera "stop_encoder";
     _ ← ext (CamStopEncoder (cam_id cam));
     cam ← the_camera "stop";
     _ ← ext (CamStop (cam_id cam));
     cam ← the_camera "close";
     _ ← ext (CamClose (cam_id cam));
     modify (with_camera None)
   else mret tt);;
  logger INFO "CameraController: stopping ..." [].

Definition is_stopped : M bool := gets stop_event.

(** [while not success and i < 5: i += 1; time.sleep(1)] *)
Fixpoint autofocus_wait (fuel : nat) (success : bool) (i : Z) : M unit :=
  if negb success && (i <? 5) then
    match fuel with
    | O => lift OutOfFuel
    | S fuel' => _ ← ext (Sleep 1000); autofocus_wait fuel' success (i + 1)
    end
  else mret tt.

(** [i] starts at 0 and the loop stops at 5: five turns at most. *)
Definition run_autofocus : M unit :=
  enabled ← gets af_enabled;
  if (enabled : bool) then
    cam ← the_camera "autofocus_cycle";
    n ← ext (CamAutofocusCycle (cam_id cam));
    let success := focus_result env n in
    autofocus_wait 5 success 0;;
    if success then
      logger DEBUG "CameraController: autofocus routine completed successfully" []
    else
      logger DEBUG "CameraController: autofocus routine timed out" []
  else mret tt.

Definition initialise_picamera : M unit :=
  logger DEBUG "CameraController: initialising picamera ..." [];;
  old ← gets camera;
  match (old : option camera_obj) with
  | Some c => _ ← ext (CamClose (cam_id c)); mret tt
  | None => mret tt
  end;;
  n ← ext CamNew;
  modify (with_camera (Some (Camera n None None None false)));;
  cam ← the_camera "camera_properties";
  n ← ext (CamProperties (cam_id cam) "Model");
  let camera_model := sensor_model env n in
  logger DEBUG "CameraController: camera module revision {} detected."
    [PStr camera_model];;
  led ← gets LED;
  (if py_eq led (PStr "off") then
     _ ← ext (GpioOutput 16 false);
     logger DEBUG "CameraController: LED disabled" []
   else
     _ ← ext (GpioOutput 16 true);
     logger DEBUG "CameraController: LED enabled" []);;
  frame_rate ← config_get "frame_rate";
  q ← lift (py_truediv (PInt 1000000) frame_rate);
  frame_duration ← lift (py_int q);
  rotate ← config_get "rotate_camera";
  modify (with_rotated_camera (PBool (py_eq rotate (PInt 1))));;
  cam ← the_camera "lsize";
  w ← gets md_width; h ← gets md_height;
  modify (with_camera (Some (Camera (cam_id cam) (Some (w, h)) (mainsize cam)
                               (rotation cam) (pre_callback cam))));;
  cam ← the_camera "mainsize";
  w ← gets width; h ← gets height;
  modify (with_camera (Some (Camera (cam_id cam) (lsize cam) (Some (w, h))
                               (rotation cam) (pre_callback cam))));;
  cam ← the_camera "create_video_configuration";
  main ← cam_attr "mainsize" (mainsize cam);
  lores ← cam_attr "lsize" (lsize cam);
  flip ← gets rotated_camera;
  let video_config :=
    VideoConfig (Some main) (Some lores) flip
      (Some (frame_duration, frame_duration)) in
  _ ← ext (CamCreateVideoConfiguration (cam_id cam) video_config);
  _ ← ext (CamConfigure (cam_id cam) video_config);
  _ ← ext (CamStart (cam_id cam));
  mode ← config_get "exposure_mode";
  (if py_eq mode (PStr "auto") then
     modify (with_exposure_mode (Some "auto"));;
     logger INFO "Initialising with automatic exposure time." []
   else
     modify (with_exposure_mode (Some "off"));;
     shutter_speed ← config_get "shutter_speed";
     logger INFO "Initialising with exposure time:  {}" [shutter_speed];;
     analogue_gain ← config_get "analogue_gain";
     logger INFO "Initialising with analogue gain:  {}" [analogue_gain];;
     shutter_speed ← config_get "shutter_speed";
     analogue_gain ← config_get "analogue_gain";
     set_exposure shutter_speed analogue_gain);;
  cam ← the_camera "camera_properties";
  n ← ext (CamProperties (cam_id cam) "PixelArraySize");
  let size := pixel_array_size env n in
  n ← ext (CamCaptureMetadata (cam_id cam));
  seconds ← lift (py_truediv (metadata_frame_duration env n) (PInt 1000000));
  rate ← lift (py_truediv (PInt 1) seconds);
  fps ← lift (py_int rate);
  logger INFO
    "CameraController: camera initialised with a resolution of {} and a framerate of {} fps"
    [size; PInt fps];;
  logger INFO
    "CameraController: Note that frame rates above 20fps have been found to lock up the Pi Zero W and Pi Zero 2W"
    [];;
  n ← ext (CamCaptureArray (cam_id cam));
  yuv ← alloc (lores_frame env n);
  _ ← ext (CvtColor yuv);
  src ← gets (λ s, array_contents s yuv);
  _ ← alloc (cvt_color env src);
  w ← gets md_width; h ← gets md_height;
  logger DEBUG
    "CameraController: Motion detection stream prepared with resolution {}x{}."
    [PInt w; PInt h];;
  af_enable ← config_get "af_enable";
  (if py_eq af_enable (PInt 1) then
     if str_contains "imx708" camera_model then
       modify (with_af_enabled true);;
       cam ← the_camera "set_controls";
       _ ← ext (CamSetControls (cam_id cam) [("AfMode", PStr "Auto")]);
       run_autofocus
     else mret tt
   else mret tt);;
  val ← gets sharpness_val;
  mode ← gets sharpness_mode;
  set_sharpness (PInt val) mode.

(** The size of the circular buffer, as [__init__] computes it:
    [int(frame_rate * (before + after + 0.5))] on the configured values. *)
Definition compute_video_buffer_size (frame_rate before after : pyval)
  : result Z :=
  rbind (py_add before after) (fun total =>
  rbind (py_add total (PFloat float_half)) (fun seconds =>
  rbind (py_mul frame_rate seconds) (fun slots =>
  py_int slots))).

(** [CameraController.__init__(self, logger, config)] *)
Definition __init__ (config' : dict_ref) : M unit :=
  modify (with_stop_event false);;
  modify (with_config config');;
  _ ← ext GpioSetmode;
  _ ← ext GpioSetwarnings;
  _ ← ext (GpioSetup 16);
  res ← config_get "resolution";
  (if py_eq res (PStr "1640x1232") then
     modify (with_resolution (PStr "1640x1232"));;
     modify (with_width 1640);; modify (with_height 1232);;
     modify (with_md_width 320);; modify (with_md_height 240)
   else
     modify (with_resolution (PStr "1920x1080"));;
     modify (with_width 1920);; modify (with_height 1080);;
     modify (with_md_width 320);; modify (with_md_height 180));;
  led ← config_get "LED";
  modify (with_LED (PStr (if py_eq led (PStr "off") then "off" else "on")));;
  ts ← config_get "timestamp";
  modify (with_timestamp (if py_eq ts (PStr "off") then 0 else 1));;
  mode ← config_get "sharpness_mode";
  (if py_eq mode (PStr "auto") then
     modify (with_sharpness_mode (PStr "auto"));;
     modify (with_sharpness_val 1)
   else
     modify (with_sharpness_mode (PStr "manual"));;
     v ← config_get "sharpness_val";
     n ← lift (py_int v);
     modify (with_sharpness_val n));;
  modify (with_camera None);;
  modify (with_rotated_camera (PBool false));;
  modify (with_af_enabled false);;
  (if picamera_exists env then
     logger INFO "CameraController: picamera module detected." [];;
     initialise_picamera;;
     cam ← the_camera "pre_callback";
     modify (with_camera (Some (Camera (cam_id cam) (lsize cam) (mainsize cam)
                                  (rotation cam) true)))
   else mret tt);;
  modify (with_image None);;
  frame_rate ← config_get "frame_rate";
  before ← config_get "video_duration_before_motion";
  after ← config_get "video_duration_after_motion";
  size ← lift (compute_video_buffer_size frame_rate before after);
  modify (with_video_buffer_size (Some size));;
  (if picamera_exists env || encoders_imported env then
     _ ← ext (NewEncoder size); mret tt
   else raise (Exn NameError "name 'H264Encoder' is not defined"));;
  logger DEBUG "CameraController: Video buffer size allocated = {}" [PInt size].

(** The inner [try] of [run]: pull a frame, convert it, stamp it. *)
Definition pull_frame : M unit :=
  cam ← the_camera "capture_array";
  n ← ext (CamCaptureArray (cam_id cam));
  yuv ← alloc (lores_frame env n);
  _ ← ext (CvtColor yuv);
  src ← gets (λ s, array_contents s yuv);
  img ← alloc (cvt_color env src);
  modify (with_image (Some img));;
  ts ← gets timestamp;
  (if ts =? 1 then
     n ← ext Strftime;
     let text := clock env n in
     _ ← ext (PutText img text);
     modify (λ s, with_heap
                    (<[img := put_text env (array_contents s img) text]>
                       (heap s)) s)
   else mret tt);;
  im ← gets image;
  (if (im : option loc) is None then
     logger WARNING "CameraController: got empty image." []
   else mret tt);;
  _ ← ext (Sleep 10);
  mret tt.

(** Its [except Exception as e] clause. *)
Definition recover (e : exn) : M unit :=
  logger ERROR "CameraController: picamera error." [];;
  logger_exception e;;
  initialise_picamera;;
  _ ← ext (Sleep 20);
  mret tt.

(** One turn of the loop of [run]; the outer clause is
    [except KeyboardInterrupt: self.logger.i]. *)
Definition run_body : M unit :=
  try_except
    (if picamera_exists env then try_except pull_frame is_Exception recover
     else mret tt)
    (λ c, bool_decide (c = KeyboardInterrupt))
    (λ _, raise (Exn AttributeError "'Logger' object has no attribute 'i'")).

(** [while not self.is_stopped(): ...] *)
Fixpoint run (fuel : nat) : M unit := λ s,
  if stop_event s then (Ok tt, s)
  else
    match fuel with
    | O => (OutOfFuel, s)
    | S fuel' => (run_body;; run fuel') s
    end.

(** The frame is copied; with no frame yet the method falls off its end and
    returns [None]. *)
Definition get_md_image : M (option loc) :=
  im ← gets image;
  match (im : option loc) with
  | Some l =>
      data ← gets (λ s, array_contents s l);
      copy ← alloc data;
      mret (Some copy)
  | None => mret None
  end.

(** [cv2.imencode(".jpg", img)]: OpenCV rejects [None]. *)
Definition cv2_imencode (img : option loc) : M (list Z) :=
  match img with
  | Some l =>
      _ ← ext Imencode;
      data ← gets (λ s, array_contents s l);
      mret (imencode env data)
  | None => raise (Exn Cv2Error "(-215:Assertion failed) !image.empty() in function 'imencode'")
  end.

Definition get_image_binary : M (list Z) :=
  img ← get_md_image;
  cv2_imencode img.

End Controller.

(** ** [__main__]: the start-up handler *)

(** What a call is given: an exception object, or a class (by the exceptions
    its instances are). *)
Inductive pyarg : Type :=
  | AObj (e : exn)
  | AType (instances : exn_class → bool).

(** The builtin [isinstance]: two arguments, no fewer. *)
Definition isinstance (args : list pyarg) : result bool :=
  match args with
  | [AObj e; AType instances] => Ok (instances (exn_cls e))
  | [_; _] =>
      Raise (Exn TypeError "isinstance() arg 2 must be a type, a tuple of types, or a union")
  | [_] => Raise (Exn TypeError "isinstance expected 2 arguments, got 1")
  | _ => Raise (Exn TypeError "isinstance expected 2 arguments")
  end.

(** [is_camera_enabled()]: what [grep -c] printed, stripped.  [probe] is the
    outcome of running the two processes. *)
Definition is_camera_enabled (probe : result string) : result pyval :=
  rbind probe (fun output => Ok (PStr (py_strip output))).

Inductive app : Type :=
  | App
  | ErrorApp (e : exn).

(** The [try: ... except Exception as e: ...] of [__main__]; [startup] is the
    outcome of [create_app()] and the two [start()] calls. *)
Definition main (startup : result unit) (probe : result string) : result app :=
  match startup with
  | Ok _ => Ok App
  | OutOfFuel => OutOfFuel
  | Raise e =>
      if is_Exception (exn_cls e) then
        rbind (rbind (isinstance [AObj e]) (fun is_inst =>
               if is_inst then Ok (str_contains "Camera is not enabled" (exn_msg e))
               else Ok false)) (fun not_enabled =>
        rbind (if not_enabled then
                 rbind (is_camera_enabled probe) (fun enabled =>
                 if py_truthy enabled then
                   Ok (Exn CameraNotFoundException
                         "Unable to access camera. Is the cable properly connected?")
                 else Ok e)
               else Ok e) (fun e' =>
        Ok (ErrorApp e')))
      else Raise e
  end.

(** ** The capacity of the circular buffer, as the specification words it *)

(** Truncation of a rational toward zero. *)
Definition Qtruncate (q : Q) : Z := Z.quot (Qnum q) (Zpos (Qden q)).

(** [frame_rate × (before + after + 0.5)], in exact arithmetic, truncated. *)
Definition buffer_capacity_spec (frame_rate before after : Z) : Z :=
  Qtruncate (inject_Z frame_rate * (inject_Z before + inject_Z after + (1 # 2)))%Q.

(** ** Notions the properties are stated with *)

(** What the loop of [bisect_left] maintains, and what it returns: the first
    position whose element is not below [x]. *)
Definition insertion_point (a : list Z) (x : Z) (pos : nat) : Prop :=
  (pos ≤ length a)%nat ∧
  (∀ i v, (i < pos)%nat → a !! i = Some v → v < x) ∧
  (∀ i v, (pos ≤ i)%nat → a !! i = Some v → x ≤ v).


(** The in-memory configuration record: the dict [self.config] points to. *)
Definition the_config (s : state) : gmap string pyval :=
  dict_contents s (config s).

(** The file the setters write, when [data_path] is a string. *)
Definition config_file (env : environment) (s : state) : option string :=
  match the_config s !! "data_path" with
  | Some (PStr d) => Some (os_path_join (module_path env) [d; "config.json"])
  | _ => None
  end.

(** The persisted record is the in-memory record. *)
Definition in_sync (env : environment) (s : state) : Prop :=
  ∃ p, config_file env s = Some p ∧ files s !! p = Some (Json (the_config s)).

(** The records written by a run of external calls, latest first. *)
Fixpoint writes (tr : list event) : list (string * gmap string pyval) :=
  match tr with
  | [] => []
  | FileWrite p c :: tr' => (p, c) :: writes tr'
  | _ :: tr' => writes tr'
  end.

(** The sleeps among a run of external calls, in milliseconds, latest
    first. *)
Fixpoint waits (tr : list event) : list Z :=
  match tr with
  | [] => []
  | Sleep millis :: tr' => millis :: waits tr'
  | _ :: tr' => waits tr'
  end.

(** The camera reconfigurations, GPIO writes and process launches among a run
    of external calls: everything but file writes. *)
Definition is_hardware_call (ev : event) : bool :=
  match ev with
  | FileOpenW _ | FileWrite _ _ => false
  | _ => true
  end.

(** The setters of the configuration store. *)
Inductive setter : Type :=
  | SetCameraRotation (rotation : pyval)
  | SetExposure (ExposureTime AnalogueGain : pyval)
  | AutoExposure
  | SetResolution (resolution : pyval)
  | SetLED (LED : pyval)
  | SetTimestampMode (timestamp : pyval)
  | SetSharpness (sharpness_val sharpness_mode : pyval).

Definition call (env : environment) (c : setter) : M unit :=
  match c with
  | SetCameraRotation r => set_camera_rotation env r
  | SetExposure t g => set_exposure env t g
  | AutoExposure => auto_exposure env
  | SetResolution r => set_resolution env r
  | SetLED l => set_LED env l
  | SetTimestampMode t => set_TimestampMode env t
  | SetSharpness v m => set_sharpness env v m
  end.

(** [Q] holds of the outcome and the final state of [m] run from [s]. *)
Definition wp {A : Type} (m : M A) (s : state) (Q : result A → state → Prop)
  : Prop :=
  Q (m s).1 (m s).2.

(** ** A concrete device to run the methods on *)

(** A Camera Module 3 that never fails: every probe of the autofocus
    succeeds, frames are four pixels, the colour conversion and the text
    overlay are stand-ins. *)
Definition steady_env : environment := {|
  picamera_exists := true;
  encoders_imported := true;
  module_path := "/home/pi/NaturewatchCameraServer/naturewatch_camera_server";
  fault := λ _, None;
  sensor_model := λ _, "imx708_wide";
  pixel_array_size := λ _, PStr "(4608, 2592)";
  metadata_frame_duration := λ _, PInt 50000;
  lores_frame := λ n, [Z.of_nat n; 1; 2; 3];
  focus_result := λ _, true;
  clock := λ _, "04/11/2026 10:00:00";
  cvt_color := λ f, f;
  put_text := λ f _, 0 :: f;
  imencode := λ f, 255 :: 216 :: f
|}.

(** The same device on a host without the picamera module. *)
Definition bare_env : environment := {|
  picamera_exists := false;
  encoders_imported := true;
  module_path := module_path steady_env;
  fault := fault steady_env;
  sensor_model := sensor_model steady_env;
  pixel_array_size := pixel_array_size steady_env;
  metadata_frame_duration := metadata_frame_duration steady_env;
  lores_frame := lores_frame steady_env;
  focus_result := focus_result steady_env;
  clock := clock steady_env;
  cvt_color := cvt_color steady_env;
  put_text := put_text steady_env;
  imencode := imencode steady_env
|}.

(** The shipped settings. *)
Definition default_config : gmap string pyval :=
  list_to_map [
    ("LED", PStr "on");
    ("af_enable", PInt 1);
    ("analogue_gain", PFloat float_half);
    ("data_path", PStr "../data");
    ("exposure_mode", PStr "auto");
    ("frame_rate", PInt 20);
    ("img_height", PInt 1080);
    ("img_width", PInt 1920);
    ("resolution", PStr "1920x1080");
    ("rotate_camera", PInt 0);
    ("sharpness_mode", PStr "auto");
    ("sharpness_val", PInt 1);
    ("shutter_speed", PInt 1000);
    ("timestamp", PStr "off");
    ("video_duration_after_motion", PInt 3);
    ("video_duration_before_motion", PInt 5)
  ].

(** The interpreter before the controller is constructed: one dict, no
    arrays, no files, nothing called yet.  The attributes have no value yet;
    [__init__] assigns them all. *)
Definition blank_state : state := {|
  stop_event := false;
  config := 0%nat;
  resolution := PNone;
  width := 0; height := 0; md_width := 0; md_height := 0;
  LED := PNone;
  timestamp := 0;
  sharpness_mode := PNone;
  sharpness_val := 0;
  camera := None;
  rotated_camera := PNone;
  af_enabled := false;
  image := None;
  exposure_mode := None;
  video_buffer_size := None;
  dicts := {[ 0%nat := default_config ]};
  heap := ∅;
  files := ∅;
  trace := [];
  log := []
|}.

(** The controller as [CameraController(logger, config)] leaves it on the
    steady device. *)
Definition started_state : state := (__init__ steady_env 0%nat blank_state).2.

(** The started controller after [set_LED("off")]. *)
Abbreviation led_off_state :=
  ((call steady_env (SetLED (PStr "off")) started_state).2) (only parsing).

(** The started controller after [set_TimestampMode("off")], the mode it
    already has, and after [set_sharpness(1, "auto")], the sharpness it
    already has. *)
Abbreviation timestamp_off_again :=
  ((set_TimestampMode steady_env (PStr "off") started_state).2) (only parsing).

Abbreviation sharpness_again :=
  ((set_sharpness steady_env (PInt 1) (PStr "auto") started_state).2)
  (only parsing).

(** Where the started controller keeps its settings. *)
Definition started_config_file : string :=
  "/home/pi/NaturewatchCameraServer/naturewatch_camera_server/../data/config.json".

(** The started controller after one [stop()], and after a second. *)
Abbreviation stopped_state := ((stop steady_env started_state).2) (only parsing).
Abbreviation stopped_twice_state := ((stop steady_env stopped_state).2) (only parsing).

(** How often a session was closed. *)
Fixpoint closes (id : nat) (tr : list event) : nat :=
  match tr with
  | [] => 0
  | CamClose j :: tr' => (if bool_decide (j = id) then 1 else 0) + closes id tr'
  | _ :: tr' => closes id tr'
  end.

(** The steady device, whose camera stops answering once the controller has
    started: every later external call raises. *)
Definition camera_lost : exn :=
  Exn RuntimeError "Camera frontend has timed out!".

Definition unplugged_env : environment := {|
  picamera_exists := true;
  encoders_imported := true;
  module_path := module_path steady_env;
  fault := λ n, if bool_decide (length (trace started_state) ≤ n)%nat
                then Some camera_lost else None;
  sensor_model := sensor_model steady_env;
  pixel_array_size := pixel_array_size steady_env;
  metadata_frame_duration := metadata_frame_duration steady_env;
  lores_frame := lores_frame steady_env;
  focus_result := focus_result steady_env;
  clock := clock steady_env;
  cvt_color := cvt_color steady_env;
  put_text := put_text steady_env;
  imencode := imencode steady_env
|}.

(** The state in which [run] ends on the unplugged device. *)
Abbreviation crashed_state :=
  ((run_body unplugged_env started_state).2) (only parsing).

(** The steady device with a lens that does not reach focus. *)
Definition blurred_env : environment := {|
  picamera_exists := true;
  encoders_imported := true;
  module_path := module_path steady_env;
  fault := fault steady_env;
  sensor_model := sensor_model steady_env;
  pixel_array_size := pixel_array_size steady_env;
  metadata_frame_duration := metadata_frame_duration steady_env;
  lores_frame := lores_frame steady_env;
  focus_result := λ _, false;
  clock := clock steady_env;
  cvt_color := cvt_color steady_env;
  put_text := put_text steady_env;
  imencode := imencode steady_env
|}.

(** The steady device with one glitch: the first call after start-up fails. *)
Definition glitch_env : environment := {|
  picamera_exists := true;
  encoders_imported := true;
  module_path := module_path steady_env;
  fault := λ n, if bool_decide (n = length (trace started_state))
                then Some camera_lost else None;
  sensor_model := sensor_model steady_env;
  pixel_array_size := pixel_array_size steady_env;
  metadata_frame_duration := metadata_frame_duration steady_env;
  lores_frame := lores_frame steady_env;
  focus_result := focus_result steady_env;
  clock := clock steady_env;
  cvt_color := cvt_color steady_env;
  put_text := put_text steady_env;
  imencode := imencode steady_env
|}.

(** The started controller after one turn of the capture loop: a frame is
    published. *)
Abbreviation published_state :=
  ((run_body steady_env started_state).2) (only parsing).

(** The started controller after [set_exposure(2000, 8)]. *)
Abbreviation exposed_state :=
  ((set_exposure steady_env (PInt 2000) (PInt 8) started_state).2)
  (only parsing).

(** ** Exact binary64 values *)

(** [m] shifted left by [k] bits. *)
Definition shl (m : positive) (k : Z) : positive :=
  match k with
  | Zpos d => Pos.iter xO m d
  | _ => m
  end.

(** The binary64 number [± m × 2^e] for a mantissa of at most 53 bits, in
    canonical form: the mantissa shifted up to 53 bits. *)
Definition normal64 (sx : bool) (m : positive) (e : Z) : spec_float :=
  S754_finite sx (shl m (53 - Zpos (digits2_pos m))) (e + Zpos (digits2_pos m) - 53).
(** * Properties *)

(** Closed equations are checked by evaluating both sides. *)
Ltac vm_refl :=
  lazymatch goal with
  | |- @eq ?T _ ?b => vm_cast_no_check (@eq_refl T b)
  end.

(** ** The closest-value resolver *)

Example closest_450 : find_closest_exposure ExpList 450 = Ok 400.
Proof. reflexivity. Qed.

Example closest_270 : find_closest_exposure ExpList 270 = Ok 250.
Proof. reflexivity. Qed.

Example closest_tie : find_closest_exposure [100; 200] 150 = Ok 100.
Proof. reflexivity. Qed.

Example closest_empty :
  find_closest_exposure [] 7 = Raise (Exn IndexError "list index out of range").
Proof. reflexivity. Qed.

Lemma py_index_lookup (l : list Z) (i : nat) (v : Z) :
  l !! i = Some v → py_index l (Z.of_nat i) = Ok v.
Proof.
  intros Hi. pose proof (lookup_lt_Some _ _ _ Hi) as Hlt.
  unfold py_index.
  destruct (Z.ltb_spec (Z.of_nat i) 0) as [?|_]; [lia|].
  destruct (Z.ltb_spec (Z.of_nat i) 0) as [?|_]; [lia|].
  destruct (Z.leb_spec (Z.of_nat (length l)) (Z.of_nat i)) as [?|_]; [lia|].
  cbn [orb]. by rewrite Nat2Z.id, Hi.
Qed.

Lemma py_index_last (l : list Z) (v : Z) :
  last l = Some v → py_index l (-1) = Ok v.
Proof.
  intros Hl. rewrite last_lookup in Hl.
  pose proof (lookup_lt_Some _ _ _ Hl) as Hlt.
  unfold py_index. cbn [Z.ltb Z.compare].
  destruct (Z.ltb_spec (-1 + Z.of_nat (length l)) 0) as [?|_]; [lia|].
  destruct (Z.leb_spec (Z.of_nat (length l)) (-1 + Z.of_nat (length l))) as [?|_];
    [lia|].
  cbn [orb].
  replace (Z.to_nat (-1 + Z.of_nat (length l))) with (pred (length l)) by lia.
  by rewrite Hl.
Qed.

(** Ascending lists, by index. *)
Lemma Sorted_lookup_le (l : list Z) (i j : nat) (x y : Z) :
  Sorted Z.le l → (i ≤ j)%nat → l !! i = Some x → l !! j = Some y → x ≤ y.
Proof.
  intros Hs. apply Sorted_StronglySorted in Hs; [|intros a b c; lia].
  revert i j x y. induction Hs as [|a l Hs IH Hall]; intros i j x y Hij Hi Hj.
  - done.
  - destruct i as [|i], j as [|j]; simplify_eq/=; try lia.
    + rewrite Forall_forall in Hall. apply Hall.
      eapply list_elem_of_lookup_2. eassumption.
    + eapply IH; [|eassumption..]. lia.
Qed.

Lemma bisect_left_loop_spec (a : list Z) (x : Z) :
  Sorted Z.le a →
  ∀ fuel lo hi,
    (hi - lo ≤ fuel)%nat → (lo ≤ hi)%nat → (hi ≤ length a)%nat →
    (∀ i v, (i < lo)%nat → a !! i = Some v → v < x) →
    (∀ i v, (hi ≤ i)%nat → a !! i = Some v → x ≤ v) →
    ∃ pos, bisect_left_loop fuel a x lo hi = Ok pos ∧ insertion_point a x pos.
Proof.
  intros Hs. induction fuel as [|fuel IH]; intros lo hi Hfuel Hle Hlen Hlo Hhi.
  - assert (lo = hi) as -> by lia. exists hi. split.
    + cbn. rewrite bool_decide_eq_false_2; [done|lia].
    + done.
  - cbn [bisect_left_loop]. case_bool_decide as Hlt.
    + set (mid := ((lo + hi) / 2)%nat).
      assert (lo ≤ mid < hi)%nat as Hmid.
      { subst mid. split.
        - apply Nat.div_le_lower_bound; lia.
        - apply Nat.Div0.div_lt_upper_bound; lia. }
      destruct (lookup_lt_is_Some_2 a mid) as [v Hv]; [lia|].
      rewrite (py_index_lookup _ _ _ Hv). cbn [rbind].
      destruct (Z.ltb_spec v x) as [Hvx|Hvx].
      * apply IH; try lia; [|done].
        intros i w Hi Hw. pose proof (Sorted_lookup_le a i mid w v Hs ltac:(lia) Hw Hv). lia.
      * apply IH; try lia; [done|].
        intros i w Hi Hw. pose proof (Sorted_lookup_le a mid i v w Hs ltac:(lia) Hv Hw). lia.
    + assert (lo = hi) as -> by lia. exists hi. done.
Qed.

Lemma bisect_left_spec (a : list Z) (x : Z) :
  Sorted Z.le a → ∃ pos, bisect_left a x = Ok pos ∧ insertion_point a x pos.
Proof.
  intros Hs. apply bisect_left_loop_spec; try done; try lia.
  intros i v Hi Hv. apply lookup_lt_Some in Hv. lia.
Qed.

(** C2.  On an ascending, non-empty list of integers [find_closest_exposure]
    returns a member of the list: the first element for a query below it, the
    last element for a query above it, and otherwise (unless the query is the
    first element itself, which is then returned) one of the two neighbours
    [before < v ≤ after] that enclose the query, namely the strictly closer
    one, and the smaller one when both are equally far.  The value returned is
    a nearest member of the whole list, and the smallest of the nearest. *)
Theorem find_closest_exposure_correct (l : list Z) (v : Z) :
  Sorted Z.le l → l ≠ [] →
  ∃ r first final,
    find_closest_exposure l v = Ok r ∧
    head l = Some first ∧ last l = Some final ∧
    r ∈ l ∧
    (v < first → r = first) ∧
    (final < v → r = final) ∧
    (first ≤ v ≤ final →
       (v = first ∧ r = first) ∨
       ∃ i before after,
         l !! i = Some before ∧ l !! S i = Some after ∧ before < v ≤ after ∧
         (Z.abs (after - v) < Z.abs (before - v) → r = after) ∧
         (Z.abs (before - v) < Z.abs (after - v) → r = before) ∧
         (Z.abs (before - v) = Z.abs (after - v) → r = Z.min before after)) ∧
    (∀ y, y ∈ l → Z.abs (r - v) ≤ Z.abs (y - v)) ∧
    (∀ y, y ∈ l → Z.abs (y - v) = Z.abs (r - v) → r ≤ y).
Proof.
  intros Hs Hne.
  destruct (bisect_left_spec l v Hs) as (pos & Hpos & Hlen & Hbelow & Habove).
  destruct (lookup_lt_is_Some_2 l 0) as [first Hfirst].
  { destruct l; [done|cbn; lia]. }
  destruct (lookup_lt_is_Some_2 l (pred (length l))) as [final Hfinal].
  { destruct l; [done|cbn; lia]. }
  assert (Hbounds : ∀ y, y ∈ l → first ≤ y ≤ final).
  { intros y [i Hy]%list_elem_of_lookup_1.
    pose proof (lookup_lt_Some _ _ _ Hy).
    split.
    - apply (Sorted_lookup_le l 0 i first y Hs); [lia|done..].
    - apply (Sorted_lookup_le l i (pred (length l)) y final Hs); [lia|done..]. }
  unfold find_closest_exposure. rewrite Hpos. cbn [rbind].
  case_bool_decide as Hzero; [|case_bool_decide as Hend].
  - (* pos = 0: nothing in the list is below the query *)
    subst pos. exists first, first, final.
    assert (Hall : ∀ y, y ∈ l → v ≤ y).
    { intros y [i Hy]%list_elem_of_lookup_1. apply (Habove i y); [lia|done]. }
    pose proof (Hall first (list_elem_of_lookup_2 _ _ _ Hfirst)).
    split_and!.
    + apply (py_index_lookup l 0 first Hfirst).
    + by rewrite head_lookup.
    + by rewrite last_lookup.
    + by eapply list_elem_of_lookup_2.
    + done.
    + intros Hlt. pose proof (Hbounds first (list_elem_of_lookup_2 _ _ _ Hfirst)). lia.
    + intros ?. left. lia.
    + intros y Hy. pose proof (Hall y Hy). pose proof (Hbounds y Hy). lia.
    + intros y Hy _. by apply Hbounds.
  - (* pos = len: everything in the list is below the query *)
    subst pos. exists final, first, final.
    assert (Hall : ∀ y, y ∈ l → y < v).
    { intros y [i Hy]%list_elem_of_lookup_1. apply (Hbelow i y); [|done].
      by eapply lookup_lt_Some. }
    pose proof (Hall final (list_elem_of_lookup_2 _ _ _ Hfinal)).
    split_and!.
    + apply py_index_last. by rewrite last_lookup.
    + by rewrite head_lookup.
    + by rewrite last_lookup.
    + by eapply list_elem_of_lookup_2.
    + intros Hlt. pose proof (Hbounds final (list_elem_of_lookup_2 _ _ _ Hfinal)). lia.
    + done.
    + intros ?. lia.
    + intros y Hy. pose proof (Hall y Hy). pose proof (Hbounds y Hy). lia.
    + intros y Hy Heq. pose proof (Hall y Hy). pose proof (Hbounds y Hy). lia.
  - (* 0 < pos < len: the query lies between two neighbours *)
    destruct pos as [|i]; [done|].
    destruct (lookup_lt_is_Some_2 l i) as [before Hbefore]; [lia|].
    destruct (lookup_lt_is_Some_2 l (S i)) as [after Hafter]; [lia|].
    replace (Z.of_nat (S i) - 1) with (Z.of_nat i) by lia.
    rewrite (py_index_lookup _ _ _ Hbefore), (py_index_lookup _ _ _ Hafter).
    cbn [rbind].
    pose proof (Hbelow i before ltac:(lia) Hbefore) as Hb.
    pose proof (Habove (S i) after ltac:(lia) Hafter) as Ha.
    assert (Hfar : ∀ y, y ∈ l → y ≤ before ∨ after ≤ y).
    { intros y [j Hy]%list_elem_of_lookup_1.
      destruct (decide (j ≤ i)%nat).
      - left. by apply (Sorted_lookup_le l j i y before Hs).
      - right. apply (Sorted_lookup_le l (S i) j after y Hs); [lia|done..]. }
    pose proof (Hbounds before (list_elem_of_lookup_2 _ _ _ Hbefore)).
    pose proof (Hbounds after (list_elem_of_lookup_2 _ _ _ Hafter)).
    destruct (Z.ltb_spec (after - v) (v - before)) as [Hcloser|Hcloser].
    + exists after, first, final. split_and!.
      * done.
      * by rewrite head_lookup.
      * by rewrite last_lookup.
      * by eapply list_elem_of_lookup_2.
      * lia.
      * lia.
      * intros _. right. exists i, before, after. split_and!; try done; lia.
      * intros y Hy. destruct (Hfar y Hy); lia.
      * intros y Hy Heq. destruct (Hfar y Hy); lia.
    + exists before, first, final. split_and!.
      * done.
      * by rewrite head_lookup.
      * by rewrite last_lookup.
      * by eapply list_elem_of_lookup_2.
      * lia.
      * lia.
      * intros _. right. exists i, before, after. split_and!; try done; lia.
      * intros y Hy. destruct (Hfar y Hy); lia.
      * intros y Hy Heq. destruct (Hfar y Hy); lia.
Qed.

Lemma ExpList_sorted : Sorted Z.le ExpList.
Proof. unfold ExpList. repeat constructor; lia. Qed.

Lemma find_closest_exposure_witness :
  ∃ r, find_closest_exposure ExpList 450 = Ok r ∧ r ∈ ExpList.
Proof.
  destruct (find_closest_exposure_correct ExpList 450)
    as (r & first & final & Hr & _ & _ & Hin & _).
  - unfold ExpList. repeat constructor; lia.
  - discriminate.
  - exists r. split; assumption.
Defined.

(** ** Reasoning about computations *)

Lemma wp_elim {A : Type} (m : M A) (s s' : state) (r : result A)
    (Q : result A → state → Prop) :
  wp m s Q → m s = (r, s') → Q r s'.
Proof. unfold wp. intros HQ E. by rewrite E in HQ. Qed.

Lemma wp_intro {A : Type} (m : M A) (s : state) (Q : result A → state → Prop) :
  (∀ r s', m s = (r, s') → Q r s') → wp m s Q.
Proof. intros H. unfold wp. apply H, surjective_pairing. Qed.

(** A run is its outcome and its final state. *)
Lemma run_pair {A : Type} (m : M A) (s : state) (r : result A) :
  (m s).1 = r → m s = (r, (m s).2).
Proof. intros <-. apply surjective_pairing. Qed.

Lemma wp_ret {A : Type} (a : A) s (Q : result A → state → Prop) :
  Q (Ok a) s → wp (mret a) s Q.
Proof. done. Qed.

Lemma wp_gets {A : Type} (f : state → A) s (Q : result A → state → Prop) :
  Q (Ok (f s)) s → wp (gets f) s Q.
Proof. done. Qed.

Lemma wp_modify (f : state → state) s (Q : result unit → state → Prop) :
  Q (Ok tt) (f s) → wp (modify f) s Q.
Proof. done. Qed.

Lemma wp_raise {A : Type} (e : exn) s (Q : result A → state → Prop) :
  Q (Raise e) s → wp (raise e) s Q.
Proof. done. Qed.

Lemma wp_lift {A : Type} (r : result A) s (Q : result A → state → Prop) :
  Q r s → wp (lift r) s Q.
Proof. done. Qed.

Lemma wp_bind {A B : Type} (m : M A) (k : A → M B) s
    (Q : result B → state → Prop) :
  wp m s (λ r s1,
    match r with
    | Ok a => wp (k a) s1 Q
    | Raise e => Q (Raise e) s1
    | OutOfFuel => Q OutOfFuel s1
    end) →
  wp (m ≫= k) s Q.
Proof.
  unfold wp, mbind, M_bind. destruct (m s) as [[a|e|] s1]; cbn; done.
Qed.

Lemma wp_try_except {A : Type} (body : M A) (catches : exn_class → bool)
    (handler : exn → M A) s
    (Q : result A → state → Prop) :
  wp body s (λ r s1,
    match r with
    | Raise e => if catches (exn_cls e) : bool then wp (handler e) s1 Q
                 else Q (Raise e) s1
    | r => Q r s1
    end) →
  wp (try_except body catches handler) s Q.
Proof.
  unfold wp, try_except. destruct (body s) as [[a|e|] s1]; cbn; try done.
  by destruct (catches (exn_cls e)).
Qed.

Lemma wp_dict_get (r : dict_ref) (k : string) s (Q : result pyval → state → Prop) :
  (∀ v, dict_contents s r !! k = Some v → Q (Ok v) s) →
  (dict_contents s r !! k = None → Q (Raise (Exn KeyError k)) s) →
  wp (dict_get r k) s Q.
Proof.
  intros HS HN. unfold wp, dict_get.
  destruct (dict_contents s r !! k) as [v|]; cbn; auto.
Qed.

Lemma wp_dict_set (r : dict_ref) (k : string) (v : pyval) s
    (Q : result unit → state → Prop) :
  Q (Ok tt) (with_dicts (<[r := <[k := v]> (dict_contents s r)]> (dicts s)) s) →
  wp (dict_set r k v) s Q.
Proof. done. Qed.

Lemma wp_logger lvl msg args s (Q : result unit → state → Prop) :
  Q (Ok tt) (with_log (Log lvl msg args :: log s) s) →
  wp (logger lvl msg args) s Q.
Proof. done. Qed.

Lemma wp_logger_exception e s (Q : result unit → state → Prop) :
  Q (Ok tt) (with_log (LogException e :: log s) s) →
  wp (logger_exception e) s Q.
Proof. done. Qed.

Lemma wp_alloc (f : frame) s (Q : result loc → state → Prop) :
  Q (Ok (fresh (dom (heap s))))
    (with_heap (<[fresh (dom (heap s)) := f]> (heap s)) s) →
  wp (alloc f) s Q.
Proof. done. Qed.

Section Rules.

Variable env : environment.

Lemma wp_ext (ev : event) s (Q : result nat → state → Prop) :
  (∀ e, fault env (length (trace s)) = Some e →
        Q (Raise e) (with_trace (ev :: trace s) s)) →
  (fault env (length (trace s)) = None →
   Q (Ok (length (trace s))) (with_trace (ev :: trace s) s)) →
  wp (ext env ev) s Q.
Proof.
  intros HS HN. unfold wp, ext.
  destruct (fault env (length (trace s))) as [e|]; cbn; auto.
Qed.

Lemma wp_the_camera (attr : string) s (Q : result camera_obj → state → Prop) :
  (∀ c, camera s = Some c → Q (Ok c) s) →
  (camera s = None →
   Q (Raise (Exn AttributeError
               ("'NoneType' object has no attribute '" ++ attr ++ "'"))) s) →
  wp (the_camera attr) s Q.
Proof.
  intros HS HN. unfold wp, the_camera. destruct (camera s) as [c|]; cbn; auto.
Qed.

End Rules.

(** Projections of updated states; the dict just written is the dict read. *)
Ltac state_simpl :=
  unfold the_config, dict_contents, array_contents,
    with_stop_event, with_config, with_resolution, with_width, with_height,
    with_md_width, with_md_height, with_LED, with_timestamp,
    with_sharpness_mode, with_sharpness_val, with_camera, with_rotated_camera,
    with_af_enabled, with_image, with_exposure_mode, with_video_buffer_size,
    with_dicts, with_heap, with_files, with_trace, with_log in *;
  cbn [stop_event config resolution width height md_width md_height LED
       timestamp sharpness_mode sharpness_val camera rotated_camera af_enabled
       image exposure_mode video_buffer_size dicts heap files trace log] in *;
  repeat (rewrite lookup_insert_eq in *; cbn [from_option id] in * ).

(** One step of symbolic execution. *)
Ltac wp_step :=
  lazymatch goal with
  | |- wp (mbind _ _) _ _ => apply wp_bind
  | |- wp (mret _) _ _ => apply wp_ret
  | |- wp (gets _) _ _ => apply wp_gets
  | |- wp (modify _) _ _ => apply wp_modify
  | |- wp (raise _) _ _ => apply wp_raise
  | |- wp (lift _) _ _ => apply wp_lift
  | |- wp (dict_set _ _ _) _ _ => apply wp_dict_set
  | |- wp (logger _ _ _) _ _ => apply wp_logger
  | |- wp (logger_exception _) _ _ => apply wp_logger_exception
  | |- wp (alloc _) _ _ => apply wp_alloc
  | |- wp (dict_get _ _) _ _ =>
      apply wp_dict_get; [intros ? ?|intros ?]
  | |- wp (ext _ _) _ _ => apply wp_ext; [intros ? ?|intros ?]
  | |- wp (the_camera _) _ _ => apply wp_the_camera; [intros ? ?|intros ?]
  | |- wp (try_except _ _ _) _ _ => apply wp_try_except
  | |- wp (if ?b then _ else _) _ _ => destruct b eqn:?
  | |- wp (match ?x with _ => _ end) _ _ => destruct x eqn:?
  | |- match ?x with _ => _ end => destruct x eqn:?
  end; cbv beta iota; state_simpl.

Ltac wp_unfold :=
  lazymatch goal with
  | |- wp (config_get _) _ _ => unfold config_get
  | |- wp (config_path _) _ _ => unfold config_path
  | |- wp (cam_attr _ _) _ _ => unfold cam_attr
  | |- wp (update_config _ _ _) _ _ => unfold update_config
  | |- wp (persist _ _) _ _ => unfold persist
  | |- wp (restart_service _) _ _ => unfold restart_service
  | |- wp (reconfigure_rotation _ _) _ _ => unfold reconfigure_rotation
  end.

Ltac wp_run := repeat first [wp_step | wp_unfold].

(** The events a trace has gained. *)
Ltac new_events l t :=
  lazymatch l with
  | t => constr:(@nil event)
  | ?x :: ?l' => let r := new_events l' t in constr:(x :: r)
  end.

Ltac solve_extends :=
  lazymatch goal with
  | |- ?L = (?n ++ ?T)%list => let r := new_events L T in unify n r; reflexivity
  end.

Ltac use_data_path :=
  match goal with
  | H : ?x = Some (PStr _) |- context [?x] => rewrite H
  end.

(** ** The configuration store *)

Ltac solve_persisted :=
  right; eexists _, _; state_simpl; split_and!;
  [ solve_extends
  | cbn [writes]; reflexivity
  | unfold config_file; state_simpl; use_data_path; reflexivity
  | by rewrite ?lookup_insert_eq ].

(** A setter that returns has either done nothing at all, or has written the
    configuration file once, and what it wrote is the dict [self.config]
    points to when it returns. *)
Lemma setter_effect env (c : setter) (s : state) :
  wp (call env c) s (λ r s',
    match r with
    | Ok _ =>
        s' = s ∨
        ∃ new p,
          trace s' = (new ++ trace s)%list ∧
          writes new = [(p, the_config s')] ∧
          config_file env s' = Some p ∧
          files s' !! p = Some (Json (the_config s'))
    | _ => True
    end).
Proof.
  destruct c; cbn [call].
  - unfold set_camera_rotation. wp_run; try exact I; try (by left); solve_persisted.
  - unfold set_exposure. wp_run; try exact I; try (by left); solve_persisted.
  - unfold auto_exposure. wp_run; try exact I; try (by left); solve_persisted.
  - unfold set_resolution. wp_run; try exact I; try (by left); solve_persisted.
  - unfold set_LED. wp_run; try exact I; try (by left); solve_persisted.
  - unfold set_TimestampMode. wp_run; try exact I; try (by left); solve_persisted.
  - unfold set_sharpness. wp_run; try exact I; try (by left); solve_persisted.
Qed.

Example started_ok : (__init__ steady_env 0%nat blank_state).1 = Ok tt.
Proof. vm_refl. Qed.

Example started_camera :
  camera started_state = Some (Camera 3 (Some (320, 180)) (Some (1920, 1080)) None true).
Proof. vm_refl. Qed.

(** C1.  For every setter ([set_camera_rotation], [set_exposure],
    [auto_exposure], [set_resolution], [set_LED], [set_TimestampMode],
    [set_sharpness]) that returns: every record the call wrote to the
    configuration file is, field for field, the in-memory record
    [self.config] at the return, and it is what the file then holds; a call
    that wrote nothing changed nothing; so a persisted record equal to the
    in-memory one stays equal. *)
Theorem setter_persists_memory env (c : setter) (s s' : state) :
  call env c s = (Ok tt, s') →
  ∃ new,
    trace s' = (new ++ trace s)%list ∧
    (∀ p record, (p, record) ∈ writes new →
       record = the_config s' ∧
       config_file env s' = Some p ∧
       files s' !! p = Some (Json (the_config s'))) ∧
    (writes new = [] → s' = s) ∧
    (in_sync env s → in_sync env s').
Proof.
  intros Hcall.
  pose proof (wp_elim _ _ _ _ _ (setter_effect env c s) Hcall) as Heff.
  cbn beta iota in Heff.
  destruct Heff as [->|(new & p & Htrace & Hwrites & Hpath & Hfile)].
  - exists []. split_and!; try done.
    intros p record Hin. cbn in Hin. by apply elem_of_nil in Hin.
  - exists new. split_and!.
    + done.
    + intros q record Hin. rewrite Hwrites in Hin.
      apply list_elem_of_singleton in Hin. by simplify_eq.
    + intros Hnone. by rewrite Hnone in Hwrites.
    + intros _. by exists p.
Qed.

Lemma setter_persists_memory_witness :
  ∃ new,
    trace led_off_state = (new ++ trace started_state)%list ∧
    (∀ p record, (p, record) ∈ writes new →
       record = the_config led_off_state ∧
       config_file steady_env led_off_state = Some p ∧
       files led_off_state !! p = Some (Json (the_config led_off_state))) ∧
    (writes new = [] → led_off_state = started_state) ∧
    (in_sync steady_env started_state → in_sync steady_env led_off_state).
Proof.
  apply (setter_persists_memory steady_env (SetLED (PStr "off"))).
  apply run_pair. vm_refl.
Defined.

Example led_off_written :
  LED led_off_state = PStr "off" ∧
  the_config led_off_state !! "LED" = Some (PStr "off") ∧
  (fst <$> writes (take 3 (trace led_off_state))) = [started_config_file].
Proof. split_and!; vm_refl. Qed.

(** ** Setters called with the value already in effect *)

(** The three guarded setters compare the argument with the attribute first. *)
Lemma set_camera_rotation_same env (rotation : pyval) (s : state) :
  py_eq (rotated_camera s) rotation = true →
  set_camera_rotation env rotation s = (Ok tt, s).
Proof.
  intros H. unfold set_camera_rotation, mbind, M_bind, gets. by rewrite H.
Qed.

Lemma set_resolution_same env (resolution' : pyval) (s : state) :
  py_eq (resolution s) resolution' = true →
  set_resolution env resolution' s = (Ok tt, s).
Proof.
  intros H. unfold set_resolution, mbind, M_bind, gets. by rewrite H.
Qed.

Lemma set_LED_same env (LED' : pyval) (s : state) :
  py_eq (LED s) LED' = true →
  set_LED env LED' s = (Ok tt, s).
Proof.
  intros H. unfold set_LED, mbind, M_bind, gets. by rewrite H.
Qed.

(** The other two have no guard: what they leave alone is the contents of
    the dict. *)
Lemma set_TimestampMode_same env (timestamp' : pyval) (s : state) :
  the_config s !! "timestamp" =
    Some (PStr (if py_eq timestamp' (PStr "off") then "off" else "on")) →
  wp (set_TimestampMode env timestamp') s (λ r s',
    match r with
    | Ok _ => the_config s' = the_config s
    | _ => True
    end).
Proof.
  intros H. unfold set_TimestampMode.
  wp_run; try exact I; by apply insert_id.
Qed.

Lemma set_sharpness_same env (sharpness_val' sharpness_mode' : pyval) (s : state) :
  the_config s !! "sharpness_mode" = Some sharpness_mode' →
  the_config s !! "sharpness_val" =
    Some (if py_eq sharpness_mode' (PStr "auto") then PInt 1 else sharpness_val') →
  wp (set_sharpness env sharpness_val' sharpness_mode') s (λ r s',
    match r with
    | Ok _ => the_config s' = the_config s
    | _ => True
    end).
Proof.
  intros Hm Hv. unfold set_sharpness.
  wp_run; try exact I.
  all: rewrite (insert_id _ "sharpness_val") by done; by apply insert_id.
Qed.

(** C3, as the code has it.  [set_camera_rotation], [set_resolution] and
    [set_LED] called with the value the controller already holds are no-ops:
    the call returns the state it was given, so the in-memory record is
    unchanged, nothing is written and no external call is made.
    [set_TimestampMode] and [set_sharpness] carry no such guard; called with
    the mode, or the sharpness value and mode, that the record already holds,
    they leave the in-memory record value-equal. *)
Theorem setters_with_current_value env (s : state) :
  (∀ rotation,
     py_eq (rotated_camera s) rotation = true →
     set_camera_rotation env rotation s = (Ok tt, s)) ∧
  (∀ resolution',
     py_eq (resolution s) resolution' = true →
     set_resolution env resolution' s = (Ok tt, s)) ∧
  (∀ LED',
     py_eq (LED s) LED' = true →
     set_LED env LED' s = (Ok tt, s)) ∧
  (∀ timestamp' s',
     the_config s !! "timestamp" =
       Some (PStr (if py_eq timestamp' (PStr "off") then "off" else "on")) →
     set_TimestampMode env timestamp' s = (Ok tt, s') →
     the_config s' = the_config s) ∧
  (∀ sharpness_val' sharpness_mode' s',
     the_config s !! "sharpness_mode" = Some sharpness_mode' →
     the_config s !! "sharpness_val" =
       Some (if py_eq sharpness_mode' (PStr "auto") then PInt 1
             else sharpness_val') →
     set_sharpness env sharpness_val' sharpness_mode' s = (Ok tt, s') →
     the_config s' = the_config s).
Proof.
  split_and!.
  - intros. by apply set_camera_rotation_same.
  - intros. by apply set_resolution_same.
  - intros. by apply set_LED_same.
  - intros t s' Hcfg Hcall.
    exact (wp_elim _ _ _ _ _ (set_TimestampMode_same env t s Hcfg) Hcall).
  - intros v m s' Hm Hv Hcall.
    exact (wp_elim _ _ _ _ _ (set_sharpness_same env v m s Hm Hv) Hcall).
Qed.

Lemma setters_with_current_value_witness :
  set_camera_rotation steady_env (PBool false) started_state = (Ok tt, started_state) ∧
  set_resolution steady_env (PStr "1920x1080") started_state = (Ok tt, started_state) ∧
  set_LED steady_env (PStr "on") started_state = (Ok tt, started_state) ∧
  the_config timestamp_off_again = the_config started_state ∧
  the_config sharpness_again = the_config started_state.
Proof.
  destruct (setters_with_current_value steady_env started_state)
    as (Hrot & Hres & Hled & Hts & Hsharp).
  split_and!.
  - apply Hrot. vm_refl.
  - apply Hres. vm_refl.
  - apply Hled. vm_refl.
  - apply (Hts (PStr "off")); [vm_refl | apply run_pair; vm_refl].
  - apply (Hsharp (PInt 1) (PStr "auto")); [vm_refl | vm_refl | apply run_pair; vm_refl].
Defined.

(** C3 as stated fails: [set_TimestampMode("off")] on a controller whose
    timestamps are off opens and rewrites the configuration file. *)
Lemma timestamp_same_value_rewrites :
  timestamp started_state = 0 ∧
  the_config started_state !! "timestamp" = Some (PStr "off") ∧
  set_TimestampMode steady_env (PStr "off") started_state
    = (Ok tt, timestamp_off_again) ∧
  length (trace started_state) = 19%nat ∧
  length (trace timestamp_off_again) = 21%nat ∧
  take 2 (trace timestamp_off_again) =
    [FileWrite started_config_file (the_config timestamp_off_again);
     FileOpenW started_config_file] ∧
  timestamp_off_again ≠ started_state.
Proof.
  assert (length (trace started_state) = 19%nat) as Hbefore by vm_refl.
  assert (length (trace timestamp_off_again) = 21%nat) as Hafter by vm_refl.
  split_and!;
    [vm_refl | vm_refl | apply run_pair; vm_refl | done | done | vm_refl |].
  intros Heq. congruence.
Qed.

(** So does [set_sharpness(1, "auto")] on a controller in auto mode, which
    also sends the control to the camera again. *)
Example sharpness_same_value_reapplies :
  sharpness_val started_state = 1 ∧
  sharpness_mode started_state = PStr "auto" ∧
  set_sharpness steady_env (PInt 1) (PStr "auto") started_state
    = (Ok tt, sharpness_again) ∧
  take 3 (trace sharpness_again) =
    [FileWrite started_config_file (the_config sharpness_again);
     FileOpenW started_config_file;
     CamSetControls 3 [("Sharpness", PInt 1)]].
Proof.
  split_and!; [vm_refl | vm_refl | apply run_pair; vm_refl | vm_refl].
Qed.

(** ** [stop()] *)

(** On a host with the picamera module a [stop()] that returns has released
    the session and left [self.camera] at [None]. *)
Lemma stop_releases env (s : state) :
  picamera_exists env = true →
  wp (stop env) s (λ r s',
    match r with
    | Ok _ =>
        camera s' = None ∧ stop_event s' = true ∧
        ∃ c, camera s = Some c ∧
             trace s' = CamClose (cam_id c) :: CamStop (cam_id c)
                        :: CamStopEncoder (cam_id c) :: trace s
    | _ => True
    end).
Proof.
  intros Hpi. unfold stop. rewrite Hpi.
  wp_run; try exact I.
  split_and!; try done. eexists. split; [done|]. congruence.
Qed.

(** With [self.camera] at [None], [stop()] raises before it reaches the
    camera. *)
Lemma stop_without_camera env (s : state) :
  picamera_exists env = true → camera s = None →
  stop env s =
    (Raise (Exn AttributeError "'NoneType' object has no attribute 'stop_encoder'"),
     with_stop_event true s).
Proof.
  intros Hpi Hcam.
  unfold stop, mbind, M_bind, modify, the_camera. rewrite Hpi. cbn. by rewrite Hcam.
Qed.

(** C4, on the code.  With the picamera module present, a second [stop()]
    after a first that returned raises [AttributeError], for every
    environment and every state; on the started controller the first call
    closes session 3 once and the second fails on [None.stop_encoder]. *)
Theorem stop_twice_raises :
  (∀ env s s1,
     picamera_exists env = true → stop env s = (Ok tt, s1) →
     stop env s1 =
       (Raise (Exn AttributeError "'NoneType' object has no attribute 'stop_encoder'"),
        with_stop_event true s1)) ∧
  stop steady_env started_state = (Ok tt, stopped_state) ∧
  closes 3 (trace stopped_state) = 1%nat ∧
  camera stopped_state = None ∧
  stop steady_env stopped_state =
    (Raise (Exn AttributeError "'NoneType' object has no attribute 'stop_encoder'"),
     stopped_twice_state) ∧
  stop_event stopped_twice_state = true.
Proof.
  split_and!.
  - intros env s s1 Hpi Hstop.
    pose proof (wp_elim _ _ _ _ _ (stop_releases env s Hpi) Hstop) as (Hcam & _).
    by apply stop_without_camera.
  - apply run_pair. vm_refl.
  - vm_refl.
  - vm_refl.
  - apply run_pair. vm_refl.
  - vm_refl.
Qed.

Lemma stop_twice_raises_witness :
  stop steady_env stopped_state =
    (Raise (Exn AttributeError "'NoneType' object has no attribute 'stop_encoder'"),
     with_stop_event true stopped_state).
Proof.
  apply (proj1 stop_twice_raises steady_env started_state stopped_state).
  - reflexivity.
  - apply run_pair. vm_refl.
Defined.

(** Without the picamera module there is no session to release and a second
    [stop()] returns. *)
Example stop_twice_without_picamera :
  ((stop bare_env;; stop bare_env) blank_state).1 = Ok tt.
Proof. vm_refl. Qed.

(** ** The capture loop *)

Lemma run_stopped env (fuel : nat) (s : state) :
  stop_event s = true → run env fuel s = (Ok tt, s).
Proof. intros H. destruct fuel; cbn; by rewrite H. Qed.

Lemma run_continues env (fuel : nat) (s s' : state) :
  stop_event s = false → run_body env s = (Ok tt, s') →
  run env (S fuel) s = run env fuel s'.
Proof.
  intros Hstop Hbody. cbn [run]. rewrite Hstop.
  unfold mbind, M_bind. by rewrite Hbody.
Qed.

Lemma run_raises env (fuel : nat) (s s' : state) (e : exn) :
  stop_event s = false → run_body env s = (Raise e, s') →
  run env (S fuel) s = (Raise e, s').
Proof.
  intros Hstop Hbody. cbn [run]. rewrite Hstop.
  unfold mbind, M_bind. by rewrite Hbody.
Qed.

(** A fault while pulling or converting a frame is logged and the camera is
    opened again. *)
Lemma recover_reinitialises env (e : exn) (s : state) :
  recover env e s =
    (initialise_picamera env;; _ ← ext env (Sleep 20); mret tt)
      (with_log (LogException e
                 :: Log ERROR "CameraController: picamera error." [] :: log s) s).
Proof. reflexivity. Qed.

(** When that succeeds the turn ends normally, and the loop goes on. *)
Lemma run_body_recovers env (s s1 s2 : state) (e : exn) :
  picamera_exists env = true →
  pull_frame env s = (Raise e, s1) → is_Exception (exn_cls e) = true →
  recover env e s1 = (Ok tt, s2) →
  run_body env s = (Ok tt, s2).
Proof.
  intros Hpi Hpull Hexc Hrec. unfold run_body, try_except.
  by rewrite Hpi, Hpull, Hexc, Hrec.
Qed.

(** When it fails the turn raises: the handler is not itself protected. *)
Lemma run_body_reinit_fails env (s s1 s2 : state) (e e' : exn) :
  picamera_exists env = true →
  pull_frame env s = (Raise e, s1) → is_Exception (exn_cls e) = true →
  recover env e s1 = (Raise e', s2) →
  ∃ e'', run_body env s = (Raise e'', s2).
Proof.
  intros Hpi Hpull Hexc Hrec. unfold run_body, try_except.
  rewrite Hpi, Hpull, Hexc, Hrec.
  case_bool_decide; eauto.
Qed.

(** C5, on the code.  A fault raised by the reinitialisation ends the loop
    with the stop flag unset, for every environment and state; on the device
    whose camera stops answering after start-up, [run] raises at its first
    turn, whatever the fuel. *)
Theorem run_ends_when_reinit_fails :
  (∀ env fuel s s1 s2 e e',
     picamera_exists env = true → stop_event s = false →
     pull_frame env s = (Raise e, s1) → is_Exception (exn_cls e) = true →
     recover env e s1 = (Raise e', s2) →
     ∃ e'', run env (S fuel) s = (Raise e'', s2)) ∧
  (∀ fuel, run unplugged_env (S fuel) started_state
           = (Raise camera_lost, crashed_state)) ∧
  stop_event crashed_state = false.
Proof.
  split_and!.
  - intros env fuel s s1 s2 e e' Hpi Hstop Hpull Hexc Hrec.
    destruct (run_body_reinit_fails env s s1 s2 e e' Hpi Hpull Hexc Hrec)
      as [e'' Hbody].
    exists e''. by apply run_raises.
  - intros fuel. apply run_raises; [vm_refl | apply run_pair; vm_refl].
  - vm_refl.
Qed.

Lemma run_ends_when_reinit_fails_witness :
  ∃ e'',
    run unplugged_env 1 started_state =
      (Raise e'',
       (recover unplugged_env camera_lost
          (pull_frame unplugged_env started_state).2).2).
Proof.
  apply (proj1 run_ends_when_reinit_fails unplugged_env 0%nat started_state
           (pull_frame unplugged_env started_state).2 _
           camera_lost camera_lost).
  - reflexivity.
  - vm_refl.
  - apply run_pair. vm_refl.
  - reflexivity.
  - apply run_pair. vm_refl.
Defined.

(** On the steady device the loop keeps publishing frames. *)
Example run_steady : (run steady_env 3 started_state).1 = OutOfFuel.
Proof. vm_refl. Qed.

(** One failed pull on an otherwise steady device: the session is closed, a
    new one is opened, and the loop is still running. *)
Example run_glitch :
  (run_body glitch_env started_state).1 = Ok tt ∧
  (cam_id <$> camera (run_body glitch_env started_state).2) = Some 21%nat ∧
  (run glitch_env 3 started_state).1 = OutOfFuel.
Proof. split_and!; vm_refl. Qed.

(** ** Autofocus *)

Lemma with_trace_id (s : state) : with_trace (trace s) s = s.
Proof. by destruct s. Qed.

Lemma autofocus_wait_success env (fuel : nat) (i : Z) (s : state) :
  autofocus_wait env fuel true i s = (Ok tt, s).
Proof. by destruct fuel. Qed.

(** After a cycle that failed the loop sleeps until [i] reaches 5. *)
Lemma autofocus_wait_failure env (fuel : nat) (i : Z) (s : state) :
  (Z.to_nat (5 - i) ≤ fuel)%nat →
  (∀ j, (j < Z.to_nat (5 - i))%nat → fault env (length (trace s) + j) = None) →
  autofocus_wait env fuel false i s =
    (Ok tt, with_trace (repeat (Sleep 1000) (Z.to_nat (5 - i)) ++ trace s)%list s).
Proof.
  revert i s. induction fuel as [|fuel IH]; intros i s Hfuel Hquiet.
  - assert (Z.to_nat (5 - i) = 0%nat) as Hz by lia.
    cbn. destruct (Z.ltb_spec i 5); [lia|].
    rewrite Hz. cbn. by rewrite with_trace_id.
  - cbn [autofocus_wait negb andb]. destruct (Z.ltb_spec i 5) as [Hlt|Hge].
    + unfold mbind, M_bind, ext.
      rewrite <- (Nat.add_0_r (length (trace s))), Hquiet by lia.
      rewrite IH.
      * cbn [trace with_trace]. f_equal.
        replace (Z.to_nat (5 - i)) with (S (Z.to_nat (5 - (i + 1)))) by lia.
        cbn [repeat]. rewrite repeat_cons, <- app_assoc. by destruct s.
      * lia.
      * intros j Hj. cbn [trace with_trace length].
        replace (S (length (trace s)) + j)%nat with (length (trace s) + S j)%nat
          by lia.
        apply Hquiet. lia.
    + replace (Z.to_nat (5 - i)) with 0%nat by lia.
      cbn. by rewrite with_trace_id.
Qed.

(** The loop never needs more than its five turns. *)
Lemma autofocus_wait_terminates env (fuel : nat) (success : bool) (i : Z) (s : state) :
  (Z.to_nat (5 - i) ≤ fuel)%nat →
  (autofocus_wait env fuel success i s).1 ≠ OutOfFuel.
Proof.
  revert i s. induction fuel as [|fuel IH]; intros i s Hfuel.
  - cbn. destruct success; cbn; [done|].
    destruct (Z.ltb_spec i 5); [lia|done].
  - cbn [autofocus_wait]. destruct success; cbn [negb andb]; [done|].
    destruct (Z.ltb_spec i 5) as [Hlt|Hge]; [|done].
    unfold mbind, M_bind, ext.
    destruct (fault env (length (trace s))); [done|].
    apply IH. lia.
Qed.

(** An exception of the focus cycle is not handled. *)
Lemma run_autofocus_fault env (s : state) (c : camera_obj) (e : exn) :
  af_enabled s = true → camera s = Some c →
  fault env (length (trace s)) = Some e →
  run_autofocus env s =
    (Raise e, with_trace (CamAutofocusCycle (cam_id c) :: trace s) s).
Proof.
  intros Haf Hcam He.
  unfold run_autofocus, mbind, M_bind, gets, the_camera, ext.
  by rewrite Haf, Hcam, He.
Qed.

Lemma waits_sleeps (k : nat) (tr : list event) :
  waits (repeat (Sleep 1000) k ++ tr)%list = (repeat 1000 k ++ waits tr)%list.
Proof. induction k as [|k IH]; [done|]. cbn. by rewrite <- IH. Qed.

(** Whatever the cycle reported and whatever the sleeps do, the loop adds
    sleeps of one second, at most one for each turn left, and nothing else. *)
Lemma autofocus_wait_sleeps env (fuel : nat) (success : bool) (i : Z) (s : state) :
  ∃ k, (k ≤ Z.to_nat (5 - i))%nat ∧
       (autofocus_wait env fuel success i s).2
         = with_trace (repeat (Sleep 1000) k ++ trace s)%list s.
Proof.
  revert i s. induction fuel as [|fuel IH]; intros i s.
  - exists 0%nat. split; [lia|]. cbn [autofocus_wait].
    destruct (negb success && (i <? 5)); cbn; by rewrite with_trace_id.
  - cbn [autofocus_wait].
    destruct success; cbn [negb andb].
    { exists 0%nat. split; [lia|]. cbn. by rewrite with_trace_id. }
    destruct (Z.ltb_spec i 5) as [Hlt|Hge].
    + unfold mbind, M_bind, ext.
      destruct (fault env (length (trace s))) as [e|].
      * exists 1%nat. split; [lia|]. reflexivity.
      * destruct (IH (i + 1) (with_trace (Sleep 1000 :: trace s) s))
          as (k & Hk & ->).
        exists (S k). split; [lia|].
        cbn [trace with_trace repeat]. rewrite repeat_cons, <- app_assoc.
        by destruct s.
    + exists 0%nat. split; [lia|]. cbn. by rewrite with_trace_id.
Qed.

(** C6, as the code has it.  With autofocus enabled and a camera open,
    [run_autofocus] first triggers a focus cycle.  There is no handler in it:
    an exception raised by the cycle reaches the caller.  If the cycle
    reports success, success is logged at once, without a wait.  In every
    case the method waits at most five times, one second each; when it
    returns it has logged success or a timeout; and the wait loop always ends
    within its five turns. *)
Theorem run_autofocus_outcome env (s : state) (c : camera_obj) :
  af_enabled s = true → camera s = Some c →
  (∀ e, fault env (length (trace s)) = Some e →
     run_autofocus env s =
       (Raise e, with_trace (CamAutofocusCycle (cam_id c) :: trace s) s)) ∧
  (fault env (length (trace s)) = None →
   focus_result env (length (trace s)) = true →
     run_autofocus env s =
       (Ok tt,
        with_log
          (Log DEBUG "CameraController: autofocus routine completed successfully" []
           :: log s)
          (with_trace (CamAutofocusCycle (cam_id c) :: trace s) s))) ∧
  (∃ new k, trace (run_autofocus env s).2 = (new ++ trace s)%list ∧
            last new = Some (CamAutofocusCycle (cam_id c)) ∧
            waits new = repeat 1000 k ∧ (k ≤ 5)%nat) ∧
  ((run_autofocus env s).1 = Ok tt →
     log (run_autofocus env s).2 =
       Log DEBUG "CameraController: autofocus routine completed successfully" []
       :: log s ∨
     log (run_autofocus env s).2 =
       Log DEBUG "CameraController: autofocus routine timed out" [] :: log s) ∧
  (run_autofocus env s).1 ≠ OutOfFuel.
Proof.
  intros Haf Hcam.
  assert (Hrun : ∀ e, fault env (length (trace s)) = Some e →
            run_autofocus env s =
              (Raise e, with_trace (CamAutofocusCycle (cam_id c) :: trace s) s))
    by (intros e He; by apply run_autofocus_fault).
  split_and!; [done| | | |].
  - intros Hok Hfocus.
    unfold run_autofocus, mbind, M_bind, gets, the_camera, ext.
    rewrite Haf, Hcam, Hok, Hfocus. by rewrite autofocus_wait_success.
  - destruct (fault env (length (trace s))) as [e|] eqn:Hfault.
    { rewrite (Hrun e eq_refl). exists [CamAutofocusCycle (cam_id c)], 0%nat.
      split_and!; [done|done|done|lia]. }
    unfold run_autofocus, mbind, M_bind, gets, the_camera, ext.
    rewrite Haf, Hcam, Hfault.
    set (s1 := with_trace _ s).
    destruct (autofocus_wait_sleeps env 5
                (focus_result env (length (trace s))) 0 s1) as (k & Hk & Hs2).
    exists (repeat (Sleep 1000) k ++ [CamAutofocusCycle (cam_id c)])%list, k.
    assert (Htrace : trace (autofocus_wait env 5
                (focus_result env (length (trace s))) 0 s1).2
              = ((repeat (Sleep 1000) k ++ [CamAutofocusCycle (cam_id c)])
                   ++ trace s)%list).
    { rewrite Hs2. subst s1. cbn [trace with_trace].
      by rewrite <- app_assoc. }
    split_and!.
    + destruct (autofocus_wait env 5 (focus_result env (length (trace s))) 0 s1)
        as [[[]|e|] s2]; cbn in *; try done.
      by destruct (focus_result env (length (trace s))).
    + by rewrite last_snoc.
    + rewrite waits_sleeps. cbn. by rewrite app_nil_r.
    + change (Z.to_nat (5 - 0)) with 5%nat in Hk. lia.
  - destruct (fault env (length (trace s))) as [e|] eqn:Hfault.
    { by rewrite (Hrun e eq_refl). }
    unfold run_autofocus, mbind, M_bind, gets, the_camera, ext.
    rewrite Haf, Hcam, Hfault.
    set (s1 := with_trace _ s).
    destruct (autofocus_wait_sleeps env 5
                (focus_result env (length (trace s))) 0 s1) as (k & Hk & Hs2).
    assert (Hlog : log (autofocus_wait env 5
                (focus_result env (length (trace s))) 0 s1).2 = log s)
      by (by rewrite Hs2).
    destruct (autofocus_wait env 5 (focus_result env (length (trace s))) 0 s1)
      as [[[]|e|] s2]; cbn in *; try done.
    intros _.
    destruct (focus_result env (length (trace s))); cbn; rewrite Hlog; auto.
  - unfold run_autofocus, mbind, M_bind, gets, the_camera, ext.
    rewrite Haf, Hcam.
    destruct (fault env (length (trace s))); [done|].
    set (s1 := with_trace _ s).
    pose proof (autofocus_wait_terminates env 5
                  (focus_result env (length (trace s))) 0 s1 ltac:(cbn; lia)) as Hterm.
    destruct (autofocus_wait env 5 (focus_result env (length (trace s))) 0 s1)
      as [[[]|e|] s2]; cbn in *; try done.
    by destruct (focus_result env (length (trace s))).
Qed.

Lemma run_autofocus_outcome_witness :
  run_autofocus steady_env started_state =
    (Ok tt,
     with_log
       (Log DEBUG "CameraController: autofocus routine completed successfully" []
        :: log started_state)
       (with_trace (CamAutofocusCycle 3 :: trace started_state) started_state)).
Proof.
  apply (run_autofocus_outcome steady_env started_state
           (Camera 3 (Some (320, 180)) (Some (1920, 1080)) None true)).
  - vm_refl.
  - vm_refl.
  - reflexivity.
  - reflexivity.
Defined.

(** C6 as stated fails: on the device whose camera has stopped answering,
    the focus cycle raises and [run_autofocus] passes the exception on. *)
Lemma run_autofocus_raises :
  af_enabled started_state = true ∧
  run_autofocus unplugged_env started_state =
    (Raise camera_lost,
     with_trace (CamAutofocusCycle 3 :: trace started_state) started_state).
Proof.
  split; [vm_refl|].
  apply (run_autofocus_fault unplugged_env started_state
           (Camera 3 (Some (320, 180)) (Some (1920, 1080)) None true));
    vm_refl.
Qed.

(** It also raises once [stop()] has set [self.camera] to [None]. *)
Example run_autofocus_after_stop :
  (run_autofocus steady_env stopped_state).1 =
    Raise (Exn AttributeError "'NoneType' object has no attribute 'autofocus_cycle'").
Proof. vm_refl. Qed.

(** A lens that does not reach focus: one cycle, then five sleeps; the cycle
    is not asked again. *)
Example run_autofocus_blurred :
  take 6 (trace (run_autofocus blurred_env started_state).2) =
    [Sleep 1000; Sleep 1000; Sleep 1000; Sleep 1000; Sleep 1000;
     CamAutofocusCycle 3].
Proof. vm_refl. Qed.

(** ** The start-up handler *)

(** [grep -c] prints a count; both counts are non-empty strings, and so are
    true in a condition. *)
Example probe_found : is_camera_enabled (Ok "1
") = Ok (PStr "1").
Proof. reflexivity. Qed.

Example probe_not_found_is_truthy :
  is_camera_enabled (Ok "0
") = Ok (PStr "0") ∧ py_truthy (PStr "0") = true.
Proof. split; reflexivity. Qed.

(** C8, on the code.  Whatever exception the start-up raises, and whatever
    the probe would say, the handler itself raises [TypeError]:
    [isinstance(e)] is called with one argument, before the message is looked
    at or the probe is run.  No [CameraNotFoundException] is ever made. *)
Theorem main_handler_raises (e : exn) (probe : result string) :
  is_Exception (exn_cls e) = true →
  main (Raise e) probe =
    Raise (Exn TypeError "isinstance expected 2 arguments, got 1").
Proof. intros He. unfold main. by rewrite He. Qed.

Lemma main_handler_raises_witness :
  main (Raise (Exn RuntimeError "Camera is not enabled. Try running 'sudo raspi-config'"))
       (Ok "1
") = Raise (Exn TypeError "isinstance expected 2 arguments, got 1").
Proof. apply main_handler_raises. reflexivity. Defined.

(** A start-up that succeeds is not touched by the handler. *)
Example main_started : main (Ok tt) (Ok "1") = Ok App.
Proof. reflexivity. Qed.

(** ** The published frame *)

(** C9.  With no frame published yet [get_md_image] returns [None] and
    raises nothing, while [get_image_binary] raises (OpenCV is handed
    [None]).  With a frame published [get_md_image] returns a new array,
    at an address that is not the live frame's and held nothing before, with
    the frame's contents; whatever the caller then writes into that array,
    the live frame is unchanged and the next reader gets its contents; and
    [get_image_binary] returns the encoding of the frame. *)
Theorem get_md_image_copies env (s : state) :
  (image s = None →
     get_md_image s = (Ok None, s) ∧
     ∃ e, get_image_binary env s = (Raise e, s)) ∧
  (∀ l data, image s = Some l → heap s !! l = Some data →
     ∃ copy s',
       get_md_image s = (Ok (Some copy), s') ∧
       copy ≠ l ∧ heap s !! copy = None ∧
       array_contents s' copy = data ∧ image s' = Some l ∧
       ∀ scribble,
         let s'' := with_heap (<[copy := scribble]> (heap s')) s' in
         array_contents s'' l = data ∧
         ∃ copy2 s3,
           get_md_image s'' = (Ok (Some copy2), s3) ∧
           copy2 ≠ copy ∧ array_contents s3 copy2 = data) ∧
  (∀ l data, image s = Some l → heap s !! l = Some data →
     fault env (length (trace s)) = None →
     ∃ s', get_image_binary env s = (Ok (imencode env data), s')).
Proof.
  split_and!.
  - intros Him. split.
    + unfold get_md_image, mbind, M_bind, gets. by rewrite Him.
    + eexists. unfold get_image_binary, get_md_image, cv2_imencode.
      unfold mbind, M_bind, gets. by rewrite Him.
  - intros l data Him Hl.
    set (copy := fresh (dom (heap s))).
    assert (Hfresh : heap s !! copy = None).
    { apply not_elem_of_dom. apply is_fresh. }
    assert (Hne : copy ≠ l) by (intros ->; congruence).
    exists copy, (with_heap (<[copy := data]> (heap s)) s).
    split_and!.
    + unfold get_md_image, mbind, M_bind, gets, alloc, array_contents.
      rewrite Him, Hl. reflexivity.
    + done.
    + done.
    + unfold array_contents. cbn. by rewrite lookup_insert_eq.
    + done.
    + intros scribble s''. subst s''. split.
      * unfold array_contents. cbn.
        by rewrite !lookup_insert_ne, Hl by done.
      * set (s'' := with_heap _ _).
        assert (Hl'' : heap s'' !! l = Some data).
        { subst s''. cbn. by rewrite !lookup_insert_ne by done. }
        set (copy2 := fresh (dom (heap s''))).
        assert (Hfresh2 : heap s'' !! copy2 = None).
        { apply not_elem_of_dom. apply is_fresh. }
        exists copy2, (with_heap (<[copy2 := data]> (heap s'')) s'').
        split_and!.
        -- assert (Him'' : image s'' = Some l) by done.
           unfold get_md_image, mbind, M_bind, gets, alloc, array_contents.
           rewrite Him'', Hl''. reflexivity.
        -- intros Heq. rewrite Heq in Hfresh2. subst s''. cbn in Hfresh2.
           by rewrite lookup_insert_eq in Hfresh2.
        -- unfold array_contents. cbn. by rewrite lookup_insert_eq.
  - intros l data Him Hl Hok.
    eexists. unfold get_image_binary, get_md_image, cv2_imencode.
    unfold mbind, M_bind, gets, alloc, ext, mret, M_ret, array_contents.
    rewrite Him, Hl. cbn [trace with_heap heap with_trace].
    rewrite Hok. cbv beta iota. cbn [heap with_trace with_heap].
    by rewrite lookup_insert_eq.
Qed.

Lemma get_md_image_copies_witness :
  get_md_image started_state = (Ok None, started_state) ∧
  ∃ copy s',
    get_md_image published_state = (Ok (Some copy), s') ∧
    copy ≠ 3%nat ∧ array_contents s' copy = [19; 1; 2; 3].
Proof.
  split.
  - apply (proj1 (get_md_image_copies steady_env started_state)).
    vm_refl.
  - destruct (proj1 (proj2 (get_md_image_copies steady_env published_state))
                3%nat [19; 1; 2; 3])
      as (copy & s' & Hget & Hne & _ & Hdata & _).
    + vm_refl.
    + vm_refl.
    + exists copy, s'. split_and!; assumption.
Defined.

Example published_frame_read :
  (get_md_image published_state).1 = Ok (Some 4%nat) ∧
  (get_image_binary steady_env published_state).1 = Ok [255; 216; 19; 1; 2; 3].
Proof. split; vm_refl. Qed.

(** ** [set_exposure] *)

Ltac exposure_leaf :=
  split_and!;
  [ intros k ? ?; by rewrite ?lookup_insert_ne by done
  | eexists; split; [solve_extends|];
    cbn [writes]; intros p record Hin;
    first [ by apply elem_of_nil in Hin
          | apply list_elem_of_singleton in Hin; by simplify_eq ]
  | intros ? ?;
    first
      [ discriminate
      | split; [reflexivity|];
        eexists; split;
        [ unfold config_file; state_simpl; use_data_path; reflexivity
        | by rewrite ?lookup_insert_eq ] ] ].

Lemma set_exposure_effect env (ExposureTime AnalogueGain : pyval) (s : state) :
  wp (set_exposure env ExposureTime AnalogueGain) s (λ r s',
    (∀ k, k ≠ "shutter_speed" → k ≠ "exposure_mode" →
          the_config s' !! k = the_config s !! k) ∧
    (∃ new,
       trace s' = (new ++ trace s)%list ∧
       ∀ p record, (p, record) ∈ writes new →
         record = <["exposure_mode" := PStr "off"]>
                    (<["shutter_speed" := ExposureTime]> (the_config s))) ∧
    (picamera_exists env = true → r = Ok tt →
       the_config s' = <["exposure_mode" := PStr "off"]>
                         (<["shutter_speed" := ExposureTime]> (the_config s)) ∧
       ∃ p, config_file env s' = Some p ∧
            files s' !! p = Some (Json (the_config s')))).
Proof.
  unfold set_exposure. wp_run; exposure_leaf.
Qed.

(** C10.  Whatever [set_exposure(ExposureTime, AnalogueGain)] does and
    however it ends, no field of the configuration record other than
    [shutter_speed] and [exposure_mode] changes, [analogue_gain] in
    particular, whatever [AnalogueGain] is; and every record the call writes
    is the prior record with [shutter_speed] set to [ExposureTime] and
    [exposure_mode] set to ["off"].  When the picamera module is present and
    the call returns, that record is the in-memory record and what the
    configuration file holds. *)
Theorem set_exposure_frame env (ExposureTime AnalogueGain : pyval)
    (s s' : state) (r : result unit) :
  set_exposure env ExposureTime AnalogueGain s = (r, s') →
  the_config s' !! "analogue_gain" = the_config s !! "analogue_gain" ∧
  (∀ k, k ≠ "shutter_speed" → k ≠ "exposure_mode" →
        the_config s' !! k = the_config s !! k) ∧
  (∃ new,
     trace s' = (new ++ trace s)%list ∧
     ∀ p record, (p, record) ∈ writes new →
       record = <["exposure_mode" := PStr "off"]>
                  (<["shutter_speed" := ExposureTime]> (the_config s))) ∧
  (picamera_exists env = true → r = Ok tt →
     the_config s' !! "shutter_speed" = Some ExposureTime ∧
     the_config s' !! "exposure_mode" = Some (PStr "off") ∧
     the_config s' = <["exposure_mode" := PStr "off"]>
                       (<["shutter_speed" := ExposureTime]> (the_config s)) ∧
     ∃ p, config_file env s' = Some p ∧
          files s' !! p = Some (Json (the_config s'))).
Proof.
  intros Hcall.
  pose proof (wp_elim _ _ _ _ _ (set_exposure_effect env ExposureTime AnalogueGain s)
                Hcall) as (Hframe & Hwrites & Hdone).
  split_and!; try done.
  - by apply Hframe.
  - intros Hpi Hr. destruct (Hdone Hpi Hr) as (Hcfg & Hfile).
    split_and!; try done.
    + rewrite Hcfg. rewrite lookup_insert_ne by done. by rewrite lookup_insert_eq.
    + rewrite Hcfg. by rewrite lookup_insert_eq.
Qed.

Lemma set_exposure_frame_witness :
  the_config exposed_state !! "analogue_gain" = Some (PFloat float_half) ∧
  the_config exposed_state !! "shutter_speed" = Some (PInt 2000) ∧
  the_config exposed_state !! "exposure_mode" = Some (PStr "off") ∧
  files exposed_state !! started_config_file = Some (Json (the_config exposed_state)).
Proof.
  destruct (set_exposure_frame steady_env (PInt 2000) (PInt 8)
              started_state exposed_state (Ok tt))
    as (Hgain & _ & _ & Hdone).
  - apply run_pair. vm_refl.
  - destruct Hdone as (Hshutter & Hmode & _ & p & Hp & Hfile);
      [reflexivity..|].
    split_and!.
    + rewrite Hgain. vm_refl.
    + exact Hshutter.
    + exact Hmode.
    + assert (config_file steady_env exposed_state = Some started_config_file)
        as Hp' by vm_refl.
      rewrite Hp' in Hp. by injection Hp as <-.
Defined.

(** ** The capacity of the circular buffer *)

(** *** Rounding is the identity on numbers that fit *)

Lemma shl_val (m : positive) (k : Z) : 0 ≤ k → Zpos (shl m k) = Zpos m * 2 ^ k.
Proof.
  destruct k as [|d|d]; intros Hk; [cbn; lia | | lia].
  clear Hk. cbn [shl]. induction d as [|d IH] using Pos.peano_ind.
  - cbn. lia.
  - rewrite Pos.iter_succ, Pos2Z.inj_succ, Z.pow_succ_r by lia.
    rewrite Pos2Z.inj_xO, IH. lia.
Qed.

Lemma shl_digits (m : positive) (k : Z) :
  0 ≤ k → Zpos (digits2_pos (shl m k)) = Zpos (digits2_pos m) + k.
Proof.
  destruct k as [|d|d]; intros Hk; [cbn; lia | | lia].
  clear Hk. cbn [shl]. induction d as [|d IH] using Pos.peano_ind.
  - cbn. lia.
  - rewrite Pos.iter_succ. cbn [digits2_pos]. lia.
Qed.

Lemma iter_pos_iter {A : Type} (f : A → A) (p : positive) (x : A) :
  SpecFloat.iter_pos f p x = Pos.iter f x p.
Proof.
  revert x. induction p as [p IH|p IH|]; intros x; cbn.
  - rewrite !IH. rewrite <- !Pos.iter_swap. reflexivity.
  - by rewrite !IH.
  - done.
Qed.

Lemma shr_shl (m : positive) (e k : Z) :
  0 ≤ k →
  shr (Build_shr_record (Zpos (shl m k)) false false) e k =
    (Build_shr_record (Zpos m) false false, e + k).
Proof.
  destruct k as [|d|d]; intros Hk; [cbn; f_equal; lia | | lia].
  clear Hk. cbn [shr shl]. f_equal. rewrite iter_pos_iter.
  induction d as [|d IH] using Pos.peano_ind.
  - reflexivity.
  - rewrite Pos.iter_succ_r. rewrite Pos.iter_succ. cbn [shr_1 orb]. exact IH.
Qed.

Lemma binary_round_aux_exact (sx : bool) (mc : positive) (e k : Z) :
  Zpos (digits2_pos mc) = 53 → 0 ≤ k → -1074 ≤ e + k ≤ 971 →
  binary_round_aux prec64 emax64 sx (Zpos (shl mc k)) e loc_Exact =
    S754_finite sx mc (e + k).
Proof.
  intros Hd Hk He.
  unfold binary_round_aux, shr_fexp.
  cbn [shr_record_of_loc Zdigits2].
  rewrite shl_digits, Hd by done.
  replace (fexp prec64 emax64 (53 + k + e) - e) with k
    by (unfold fexp, emin, prec64, emax64; lia).
  rewrite shr_shl by done.
  cbn [shr_m loc_of_shr_record round_nearest_even Zdigits2 shr_record_of_loc].
  rewrite Hd.
  replace (fexp prec64 emax64 (53 + (e + k)) - (e + k)) with 0
    by (unfold fexp, emin, prec64, emax64; lia).
  cbn [shr shr_m].
  destruct (Z.leb_spec (e + k) (emax64 - prec64)) as [_|Hgt];
    [done | unfold emax64, prec64 in Hgt; lia].
Qed.

Lemma digits2_pos_bounds (p : positive) :
  2 ^ (Zpos (digits2_pos p) - 1) ≤ Zpos p < 2 ^ Zpos (digits2_pos p).
Proof.
  induction p as [p IH|p IH|]; cbn [digits2_pos].
  - rewrite Pos2Z.inj_succ.
    replace (Z.succ (Zpos (digits2_pos p)) - 1) with (Z.succ (Zpos (digits2_pos p) - 1))
      by lia.
    rewrite !Z.pow_succ_r by lia. lia.
  - rewrite Pos2Z.inj_succ.
    replace (Z.succ (Zpos (digits2_pos p)) - 1) with (Z.succ (Zpos (digits2_pos p) - 1))
      by lia.
    rewrite !Z.pow_succ_r by lia. lia.
  - cbn. lia.
Qed.

Lemma digits2_pos_le (p : positive) (k : Z) :
  Zpos p < 2 ^ k → Zpos (digits2_pos p) ≤ k.
Proof.
  intros Hp. pose proof (digits2_pos_bounds p) as [Hlo _].
  destruct (Z.le_gt_cases (Zpos (digits2_pos p)) k) as [|Hgt]; [done|].
  assert (2 ^ k ≤ 2 ^ (Zpos (digits2_pos p) - 1)).
  { apply Z.pow_le_mono_r; lia. }
  lia.
Qed.

Lemma shl_shl (m : positive) (a b : Z) :
  0 ≤ a → 0 ≤ b → shl (shl m a) b = shl m (a + b).
Proof.
  intros Ha Hb. apply Pos2Z.inj.
  rewrite !shl_val by lia. rewrite Z.pow_add_r by lia. lia.
Qed.

Lemma normal64_digits (m : positive) :
  Zpos (digits2_pos m) ≤ 53 →
  Zpos (digits2_pos (shl m (53 - Zpos (digits2_pos m)))) = 53.
Proof. intros Hd. rewrite shl_digits by lia. lia. Qed.

Lemma binary_round_exact (sx : bool) (m : positive) (e j : Z) :
  Zpos (digits2_pos m) ≤ 53 → 0 ≤ j →
  -1074 ≤ e + j + Zpos (digits2_pos m) - 53 ≤ 971 →
  binary_round prec64 emax64 sx (shl m j) e = normal64 sx m (e + j).
Proof.
  intros Hd Hj He. unfold binary_round, shl_align, normal64.
  rewrite shl_digits by done.
  set (d := Zpos (digits2_pos m)) in *.
  replace (fexp prec64 emax64 (d + j + e)) with (e + j + d - 53)
    by (unfold fexp, emin, prec64, emax64; lia).
  replace (e + j + d - 53 - e) with (d + j - 53) by lia.
  destruct (d + j - 53) as [|q|q] eqn:Hq.
  - replace (shl m j) with (shl (shl m (53 - d)) 0)
      by (cbn [shl]; f_equal; lia).
    rewrite binary_round_aux_exact; [f_equal; lia| |lia|lia].
    by apply normal64_digits.
  - replace (shl m j) with (shl (shl m (53 - d)) (Zpos q))
      by (rewrite shl_shl by lia; f_equal; lia).
    rewrite binary_round_aux_exact; [f_equal; lia| |lia|lia].
    by apply normal64_digits.
  - change (Pos.iter xO (shl m j) q) with (shl (shl m j) (Zpos q)).
    rewrite shl_shl by lia.
    replace (j + Zpos q) with (53 - d) by lia.
    change (shl m (53 - d)) with (shl (shl m (53 - d)) 0) at 1.
    rewrite binary_round_aux_exact; [f_equal; lia| |lia|lia].
    by apply normal64_digits.
Qed.

Lemma float_of_Z_exact (p : positive) :
  Zpos p < 2 ^ 53 → float_of_Z (Zpos p) = Ok (normal64 false p 0).
Proof.
  intros Hp. pose proof (digits2_pos_le p 53 Hp) as Hd.
  unfold float_of_Z, binary_normalize.
  change p with (shl p 0) at 1.
  rewrite binary_round_exact by lia. reflexivity.
Qed.

(** [float(t) + 0.5] for [0 < t] and [2t + 1 < 2^53]. *)
Lemma SFadd_half (t : positive) :
  Zpos t~1 < 2 ^ 53 →
  SFadd prec64 emax64 (normal64 false t 0) float_half = normal64 false t~1 (-1).
Proof.
  intros Ht.
  assert (Hdt : Zpos (digits2_pos t) ≤ 52).
  { pose proof (digits2_pos_le t~1 53 Ht) as H. cbn [digits2_pos] in H. lia. }
  pose proof (Pos2Z.is_pos (digits2_pos t)) as Hpos.
  unfold normal64, float_half, SFadd.
  set (d := Zpos (digits2_pos t)) in *.
  replace (Z.min (0 + d - 53) (-53)) with (-53) by lia.
  unfold shl_align.
  replace (-53 - (0 + d - 53)) with (- d) by lia.
  change (-53 - -53) with 0.
  destruct (- d) as [|q|q] eqn:Hq; [lia|lia|].
  change (Pos.iter xO (shl t (53 - d)) q) with (shl (shl t (53 - d)) (Zpos q)).
  rewrite shl_shl by lia.
  replace (53 - d + Zpos q) with 53 by lia.
  cbn [fst cond_Zopp].
  replace (Zpos (shl t 53) + 4503599627370496) with (Zpos (shl t~1 52)).
  2:{ rewrite !shl_val by lia. rewrite Pos2Z.inj_xI.
      change (2 ^ 53) with 9007199254740992.
      change (2 ^ 52) with 4503599627370496. lia. }
  unfold binary_normalize.
  rewrite binary_round_exact.
  - unfold normal64. f_equal; lia.
  - by apply digits2_pos_le.
  - lia.
  - pose proof (digits2_pos_le t~1 53 Ht). pose proof (Pos2Z.is_pos (digits2_pos t~1)). lia.
Qed.

Lemma float_of_Z_exact_neg (p : positive) :
  Zpos p < 2 ^ 53 → float_of_Z (Zneg p) = Ok (normal64 true p 0).
Proof.
  intros Hp. pose proof (digits2_pos_le p 53 Hp) as Hd.
  unfold float_of_Z, binary_normalize.
  change p with (shl p 0) at 1.
  rewrite binary_round_exact by lia. reflexivity.
Qed.

(** The float of a non-zero int that fits. *)
Lemma float_of_Z_signed (n : Z) :
  n ≠ 0 → Z.abs n < 2 ^ 53 →
  float_of_Z n = Ok (normal64 (n <? 0) (Z.to_pos (Z.abs n)) 0).
Proof.
  intros Hnz Hfit. destruct n as [|p|p]; [done| |].
  - cbn [Z.ltb Z.compare Z.abs Z.to_pos]. by apply float_of_Z_exact.
  - cbn [Z.ltb Z.compare Z.abs Z.to_pos]. by apply float_of_Z_exact_neg.
Qed.

(** [float(-t) + 0.5] for [0 < t] and [2t - 1 < 2^53]. *)
Lemma SFadd_half_neg (t : positive) :
  Zpos (Pos.pred_double t) < 2 ^ 53 →
  SFadd prec64 emax64 (normal64 true t 0) float_half
    = normal64 true (Pos.pred_double t) (-1).
Proof.
  intros Ht.
  assert (Hpd : Zpos (Pos.pred_double t) = 2 * Zpos t - 1) by lia.
  assert (Hdt : Zpos (digits2_pos t) ≤ 53).
  { apply digits2_pos_le. change (2 ^ 53) with 9007199254740992 in *. lia. }
  pose proof (Pos2Z.is_pos (digits2_pos t)) as Hpos.
  unfold normal64 at 1. unfold float_half, SFadd.
  set (d := Zpos (digits2_pos t)) in *.
  replace (Z.min (0 + d - 53) (-53)) with (-53) by lia.
  unfold shl_align.
  replace (-53 - (0 + d - 53)) with (- d) by lia.
  change (-53 - -53) with 0.
  destruct (- d) as [|q|q] eqn:Hq; [lia|lia|].
  change (Pos.iter xO (shl t (53 - d)) q) with (shl (shl t (53 - d)) (Zpos q)).
  rewrite shl_shl by lia.
  replace (53 - d + Zpos q) with 53 by lia.
  cbn [fst cond_Zopp].
  replace (- Zpos (shl t 53) + 4503599627370496)
    with (Zneg (shl (Pos.pred_double t) 52)).
  2:{ rewrite <- Pos2Z.opp_pos. rewrite !shl_val by lia. rewrite Hpd.
      change (2 ^ 53) with 9007199254740992.
      change (2 ^ 52) with 4503599627370496. lia. }
  unfold binary_normalize.
  rewrite binary_round_exact.
  - unfold normal64. f_equal; lia.
  - by apply digits2_pos_le.
  - lia.
  - pose proof (digits2_pos_le _ 53 Ht).
    pose proof (Pos2Z.is_pos (digits2_pos (Pos.pred_double t))). lia.
Qed.

(** The product of two exact floats, of either sign, whose exact product
    fits. *)
Lemma SFmul_exact (sf ss : bool) (f s : positive) (e : Z) :
  Zpos (f * s) < 2 ^ 53 → -1000 ≤ e ≤ 900 →
  SFmul prec64 emax64 (normal64 sf f 0) (normal64 ss s e)
    = normal64 (xorb sf ss) (f * s) e.
Proof.
  intros Hn He.
  pose proof (digits2_pos_bounds f) as [Hf1 Hf2].
  pose proof (digits2_pos_bounds s) as [Hs1 Hs2].
  pose proof (digits2_pos_bounds (f * s)) as [Hn1 Hn2].
  pose proof (digits2_pos_le (f * s) 53 Hn) as Hdn.
  pose proof (Pos2Z.is_pos (digits2_pos f)).
  pose proof (Pos2Z.is_pos (digits2_pos s)).
  pose proof (Pos2Z.is_pos (digits2_pos (f * s))).
  set (df := Zpos (digits2_pos f)) in *.
  set (ds := Zpos (digits2_pos s)) in *.
  set (dn := Zpos (digits2_pos (f * s))) in *.
  assert (Hsum : df + ds ≤ dn + 1).
  { destruct (Z.le_gt_cases (df + ds) (dn + 1)) as [|Hgt]; [done|].
    assert (2 ^ dn ≤ 2 ^ (df - 1 + (ds - 1))) by (apply Z.pow_le_mono_r; lia).
    rewrite Z.pow_add_r in * by lia.
    rewrite Pos2Z.inj_mul in *. nia. }
  assert (Hdf : df ≤ 53).
  { destruct (Z.le_gt_cases df 53) as [|Hgt]; [done|].
    assert (2 ^ 53 ≤ 2 ^ (df - 1)) by (apply Z.pow_le_mono_r; lia).
    rewrite Pos2Z.inj_mul in *. nia. }
  assert (Hds : ds ≤ 53).
  { destruct (Z.le_gt_cases ds 53) as [|Hgt]; [done|].
    assert (2 ^ 53 ≤ 2 ^ (ds - 1)) by (apply Z.pow_le_mono_r; lia).
    rewrite Pos2Z.inj_mul in *. nia. }
  unfold normal64 at 1 2. fold df ds. cbn [SFmul].
  replace (shl f (53 - df) * shl s (53 - ds))%positive
    with (shl (shl (f * s) (53 - dn)) (53 - df - ds + dn)).
  2:{ apply Pos2Z.inj. rewrite Pos2Z.inj_mul, !shl_val by lia.
      rewrite Pos2Z.inj_mul.
      replace (53 - df - ds + dn) with ((dn - df) + (53 - ds)) by lia.
      replace (53 - df) with ((53 - dn) + (dn - df)) by lia.
      rewrite !Z.pow_add_r by lia. ring. }
  rewrite binary_round_aux_exact.
  - unfold normal64. fold dn. f_equal. lia.
  - by apply normal64_digits.
  - lia.
  - lia.
Qed.

(** [int(x)] of an exact float with a negative exponent: towards zero. *)
Lemma float_trunc_half (sx : bool) (n : positive) :
  Zpos n < 2 ^ 53 →
  float_trunc (normal64 sx n (-1)) = Ok (cond_Zopp sx (Zpos n / 2)).
Proof.
  intros Hn. pose proof (digits2_pos_le n 53 Hn) as Hd.
  pose proof (Pos2Z.is_pos (digits2_pos n)).
  unfold normal64, float_trunc. set (d := Zpos (digits2_pos n)) in *.
  destruct (Z.leb_spec 0 (-1 + d - 53)) as [?|_]; [lia|].
  do 2 f_equal.
  rewrite shl_val by lia.
  replace (- (-1 + d - 53)) with (1 + (53 - d)) by lia.
  rewrite Z.pow_add_r by lia. change (2 ^ 1) with 2.
  rewrite Z.mul_comm, (Z.mul_comm 2).
  rewrite Z.div_mul_cancel_l; [done|lia|].
  apply Z.pow_nonzero; lia.
Qed.

Lemma half_normal : float_half = normal64 false 1 (-1).
Proof. reflexivity. Qed.

(** [before + after + 0.5] on ints: an odd number of halves. *)
Lemma seconds_exact (b a : Z) :
  Z.abs (2 * (b + a) + 1) < 2 ^ 53 →
  rbind (py_add (PInt b) (PInt a)) (λ total, py_add total (PFloat float_half))
    = Ok (PFloat (normal64 (2 * (b + a) + 1 <? 0)
                    (Z.to_pos (Z.abs (2 * (b + a) + 1))) (-1))).
Proof.
  intros Hfit. cbn [py_add as_number rbind].
  destruct (b + a) as [|t|t] eqn:Ht.
  - reflexivity.
  - cbn [to_float]. rewrite float_of_Z_exact by lia. cbn [rbind].
    rewrite SFadd_half by (rewrite Pos2Z.inj_xI; lia).
    reflexivity.
  - cbn [to_float].
    assert (Hpd : Zpos (Pos.pred_double t) = 2 * Zpos t - 1) by lia.
    rewrite float_of_Z_exact_neg by lia. cbn [rbind].
    rewrite SFadd_half_neg by lia.
    assert (Hs : (2 * Z.neg t + 1 <? 0) = true) by (apply Z.ltb_lt; lia).
    assert (Hp : Z.to_pos (Z.abs (2 * Z.neg t + 1)) = Pos.pred_double t)
      by (apply Pos2Z.inj; rewrite Z2Pos.id; lia).
    rewrite Hs, Hp. reflexivity.
Qed.

(** The specification's capacity, as one quotient. *)
Lemma buffer_capacity_spec_quot (f b a : Z) :
  buffer_capacity_spec f b a = Z.quot (f * (2 * (b + a) + 1)) 2.
Proof.
  unfold buffer_capacity_spec, Qtruncate. cbn. f_equal. lia.
Qed.

Lemma cond_Zopp_quot (n : Z) :
  n ≠ 0 → cond_Zopp (n <? 0) (Z.abs n / 2) = Z.quot n 2.
Proof.
  intros Hn. destruct (Z.ltb_spec n 0) as [Hneg|Hpos]; cbn [cond_Zopp].
  - rewrite <- (Z.opp_involutive n) at 2. rewrite Z.quot_opp_l by lia.
    rewrite Z.quot_div_nonneg by lia. f_equal. f_equal. lia.
  - rewrite Z.quot_div_nonneg by lia. f_equal. lia.
Qed.

(** C7, as the code has it.  The capacity [__init__] computes is
    [int(frame_rate * (before + after + 0.5))], evaluated in binary64.  On
    integer settings for which [2 × (before + after) + 1] and
    [frame_rate × (2 × (before + after) + 1)] lie strictly between -2^53 and
    2^53 (binary64 is exact there) it is the truncation of
    [frame_rate × (before + after + 0.5)]; for 20 frames a second, 5 seconds
    before and 3 after it is 170, which is what the started controller holds
    and hands to the circular output. *)
Theorem video_buffer_size_correct :
  (∀ frame_rate before after : Z,
     Z.abs (2 * (before + after) + 1) < 2 ^ 53 →
     Z.abs (frame_rate * (2 * (before + after) + 1)) < 2 ^ 53 →
     compute_video_buffer_size (PInt frame_rate) (PInt before) (PInt after)
       = Ok (buffer_capacity_spec frame_rate before after)) ∧
  compute_video_buffer_size (PInt 20) (PInt 5) (PInt 3) = Ok 170 ∧
  buffer_capacity_spec 20 5 3 = 170 ∧
  video_buffer_size started_state = Some 170 ∧
  head (trace started_state) = Some (NewEncoder 170).
Proof.
  split_and!; [|vm_refl..].
  intros f b a Hfit Hprod.
  rewrite buffer_capacity_spec_quot.
  unfold compute_video_buffer_size.
  change (rbind (py_add (PInt b) (PInt a)) ?k)
    with (rbind (rbind (py_add (PInt b) (PInt a))
                   (λ total, py_add total (PFloat float_half)))
            (λ seconds, rbind (py_mul (PInt f) seconds) py_int)).
  rewrite seconds_exact by done. cbn [rbind py_mul as_number to_float].
  set (n := 2 * (b + a) + 1) in *.
  assert (Hn : n ≠ 0) by (subst n; lia).
  destruct (decide (f = 0)) as [->|Hf]; [reflexivity|].
  assert (Z.abs f < 2 ^ 53) by nia.
  rewrite float_of_Z_signed by done. cbn [rbind].
  assert (Hpos : Zpos (Z.to_pos (Z.abs f) * Z.to_pos (Z.abs n)) = Z.abs (f * n)).
  { rewrite Pos2Z.inj_mul, !Z2Pos.id by lia. by rewrite Z.abs_mul. }
  rewrite SFmul_exact by (rewrite ?Hpos; lia).
  cbn [py_int]. rewrite float_trunc_half by (rewrite Hpos; lia).
  rewrite Hpos. f_equal.
  replace (xorb (f <? 0) (n <? 0)) with (f * n <? 0).
  - apply cond_Zopp_quot. nia.
  - destruct (Z.ltb_spec f 0), (Z.ltb_spec n 0), (Z.ltb_spec (f * n) 0);
      cbn; try done; nia.
Qed.

Lemma video_buffer_size_correct_witness :
  compute_video_buffer_size (PInt 25) (PInt 10) (PInt 4)
    = Ok (buffer_capacity_spec 25 10 4).
Proof.
  apply (proj1 video_buffer_size_correct 25 10 4);
    change (2 ^ 53) with 9007199254740992; cbn; lia.
Defined.

(** C7 as stated fails: beyond that range binary64 rounds.  With 2^52
    seconds kept, the half second is lost before the product is taken, and
    the capacity is one short of the truncated exact product. *)
Lemma video_buffer_size_rounds :
  compute_video_buffer_size (PInt 3) (PInt (2 ^ 52)) (PInt 0) = Ok (3 * 2 ^ 52) ∧
  buffer_capacity_spec 3 (2 ^ 52) 0 = 3 * 2 ^ 52 + 1 ∧
  compute_video_buffer_size (PInt 3) (PInt (2 ^ 52)) (PInt 0)
    ≠ Ok (buffer_capacity_spec 3 (2 ^ 52) 0).
Proof.
  assert (Hcode : compute_video_buffer_size (PInt 3) (PInt (2 ^ 52)) (PInt 0)
                    = Ok (3 * 2 ^ 52)) by vm_refl.
  assert (Hspec : buffer_capacity_spec 3 (2 ^ 52) 0 = 3 * 2 ^ 52 + 1) by vm_refl.
  split_and!; [done|done|].
  rewrite Hcode, Hspec. intros [=]; lia.
Qed.

(** Durations that are not whole seconds round as well: with 0.7 seconds
    kept (in binary64, 6305039478318694 / 2^53) and 10 frames a second, the
    sum rounds up to the float of 1.2, the product to 12.0, and the capacity
    is 12, while the exact product of the values held is just below 12. *)
Example video_buffer_size_fractional :
  py_truediv (PInt 7) (PInt 10)
    = Ok (PFloat (S754_finite false 6305039478318694 (-53))) ∧
  compute_video_buffer_size
    (PInt 10) (PFloat (S754_finite false 6305039478318694 (-53))) (PInt 0)
    = Ok 12 ∧
  Qtruncate (10 * ((6305039478318694 # 9007199254740992) + 0 + (1 # 2)))%Q = 11.
Proof. split_and!; vm_refl. Qed.

(** Settings that are not numbers end the construction. *)
Example video_buffer_size_of_text :
  compute_video_buffer_size (PStr "20") (PInt 5) (PInt 3)
    = Raise (unsupported "*").
Proof. reflexivity. Qed.

(** * Further properties *)

(** ** The resolver beyond ascending lists, and on the preset table *)

(** On any list at all the loop of [bisect_left] stays inside the list and
    ends within its fuel. *)
Lemma bisect_left_loop_bounds (a : list Z) (x : Z) (fuel lo hi : nat) :
  (hi - lo ≤ fuel)%nat → (lo ≤ hi)%nat → (hi ≤ length a)%nat →
  ∃ pos, bisect_left_loop fuel a x lo hi = Ok pos ∧ (lo ≤ pos ≤ hi)%nat.
Proof.
  revert lo hi. induction fuel as [|fuel IH]; intros lo hi Hfuel Hle Hlen.
  - assert (lo = hi) as -> by lia. exists hi. split; [|lia].
    cbn. rewrite bool_decide_eq_false_2; [done|lia].
  - cbn [bisect_left_loop]. case_bool_decide as Hlt.
    + set (mid := ((lo + hi) / 2)%nat).
      assert (lo ≤ mid < hi)%nat as Hmid.
      { subst mid. split.
        - apply Nat.div_le_lower_bound; lia.
        - apply Nat.Div0.div_lt_upper_bound; lia. }
      destruct (lookup_lt_is_Some_2 a mid) as [v Hv]; [lia|].
      rewrite (py_index_lookup _ _ _ Hv). cbn [rbind].
      destruct (v <? x).
      * destruct (IH (mid + 1)%nat hi) as (pos & Hpos & Hb); [lia..|].
        exists pos. split; [done|lia].
      * destruct (IH lo mid) as (pos & Hpos & Hb); [lia..|].
        exists pos. split; [done|lia].
    + exists lo. split; [done|lia].
Qed.

(** On a non-empty list, in whatever order, the resolver returns one of the
    list's values. *)
Lemma find_closest_exposure_returns (l : list Z) (v : Z) :
  l ≠ [] → ∃ r, find_closest_exposure l v = Ok r ∧ r ∈ l.
Proof.
  intros Hne.
  destruct (bisect_left_loop_bounds l v (length l) 0 (length l))
    as (pos & Hpos & Hb); [lia..|].
  unfold find_closest_exposure, bisect_left. rewrite Hpos. cbn [rbind].
  assert (0 < length l)%nat as Hlen by (destruct l; [done|cbn; lia]).
  case_bool_decide as Hzero; [|case_bool_decide as Hend].
  - destruct (lookup_lt_is_Some_2 l 0) as [x Hx]; [lia|].
    exists x. split; [apply (py_index_lookup l 0 x Hx)|].
    by eapply list_elem_of_lookup_2.
  - destruct (lookup_lt_is_Some_2 l (pred (length l))) as [x Hx]; [lia|].
    exists x. split; [apply py_index_last; by rewrite last_lookup|].
    by eapply list_elem_of_lookup_2.
  - destruct pos as [|i]; [done|].
    destruct (lookup_lt_is_Some_2 l i) as [before Hbefore]; [lia|].
    destruct (lookup_lt_is_Some_2 l (S i)) as [after Hafter]; [lia|].
    replace (Z.of_nat (S i) - 1) with (Z.of_nat i) by lia.
    rewrite (py_index_lookup _ _ _ Hbefore), (py_index_lookup _ _ _ Hafter).
    cbn [rbind]. destruct (after - v <? v - before).
    + exists after. split; [done|]. by eapply list_elem_of_lookup_2.
    + exists before. split; [done|]. by eapply list_elem_of_lookup_2.
Qed.

(** X2.  [find_closest_exposure] needs no order to be safe: on every
    non-empty list, ascending or not, and every query it returns a member of
    the list; on the empty list it raises [IndexError]. *)
Theorem find_closest_exposure_total (l : list Z) (v : Z) :
  (l ≠ [] → ∃ r, find_closest_exposure l v = Ok r ∧ r ∈ l) ∧
  (l = [] →
   find_closest_exposure l v = Raise (Exn IndexError "list index out of range")).
Proof.
  split; [apply find_closest_exposure_returns|by intros ->].
Qed.

Lemma find_closest_exposure_total_witness :
  ∃ r, find_closest_exposure [500; 250; 400] 300 = Ok r ∧ r ∈ [500; 250; 400].
Proof. apply (proj1 (find_closest_exposure_total [500; 250; 400] 300)). discriminate. Defined.

(** On an ascending list the value returned is a nearest member, and the
    smallest of the nearest. *)
Lemma find_closest_exposure_nearest (l : list Z) (v : Z) :
  Sorted Z.le l → l ≠ [] →
  ∃ r, find_closest_exposure l v = Ok r ∧ r ∈ l ∧
       (∀ y, y ∈ l → Z.abs (r - v) ≤ Z.abs (y - v)) ∧
       (∀ y, y ∈ l → Z.abs (y - v) = Z.abs (r - v) → r ≤ y).
Proof.
  intros Hs Hne.
  destruct (bisect_left_spec l v Hs) as (pos & Hpos & Hlen & Hbelow & Habove).
  destruct (find_closest_exposure_returns l v Hne) as (r & Hr & Hin).
  exists r. split; [done|]. split; [done|].
  revert Hr. unfold find_closest_exposure. rewrite Hpos. cbn [rbind].
  assert (Hside : ∀ y, y ∈ l → ∃ j, l !! j = Some y ∧
                    ((j < pos)%nat ∧ y < v ∨ (pos ≤ j)%nat ∧ v ≤ y)).
  { intros y [j Hy]%list_elem_of_lookup_1. exists j. split; [done|].
    destruct (decide (j < pos)%nat); [left|right]; split; try lia.
    - by apply (Hbelow j).
    - apply (Habove j); [lia|done]. }
  case_bool_decide as Hzero; [|case_bool_decide as Hend].
  - subst pos. intros Hr.
    destruct (lookup_lt_is_Some_2 l 0) as [x Hx].
    { destruct l; [done|cbn; lia]. }
    assert (py_index l 0 = Ok x) as E by apply (py_index_lookup l 0 x Hx).
    rewrite E in Hr. injection Hr as <-.
    assert (Hall : ∀ y, y ∈ l → v ≤ y ∧ x ≤ y).
    { intros y Hy. destruct (Hside y Hy) as (j & Hj & [[? _]|[_ ?]]); [lia|].
      split; [done|]. apply (Sorted_lookup_le l 0 j x y Hs); [lia|done..]. }
    pose proof (Hall x (list_elem_of_lookup_2 _ _ _ Hx)).
    split; intros y Hy; pose proof (Hall y Hy); lia.
  - subst pos. intros Hr.
    destruct (lookup_lt_is_Some_2 l (pred (length l))) as [x Hx].
    { destruct l; [done|cbn; lia]. }
    rewrite (py_index_last l x) in Hr by (by rewrite last_lookup).
    injection Hr as <-.
    assert (Hall : ∀ y, y ∈ l → y < v ∧ y ≤ x).
    { intros y Hy. destruct (Hside y Hy) as (j & Hj & [[_ ?]|[? _]]).
      - split; [done|]. pose proof (lookup_lt_Some _ _ _ Hj).
        apply (Sorted_lookup_le l j (pred (length l)) y x Hs); [lia|done..].
      - pose proof (lookup_lt_Some _ _ _ Hj). lia. }
    pose proof (Hall x (list_elem_of_lookup_2 _ _ _ Hx)).
    split; intros y Hy; pose proof (Hall y Hy); lia.
  - destruct pos as [|i]; [done|].
    destruct (lookup_lt_is_Some_2 l i) as [before Hbefore]; [lia|].
    destruct (lookup_lt_is_Some_2 l (S i)) as [after Hafter]; [lia|].
    replace (Z.of_nat (S i) - 1) with (Z.of_nat i) by lia.
    rewrite (py_index_lookup _ _ _ Hbefore), (py_index_lookup _ _ _ Hafter).
    cbn [rbind].
    pose proof (Hbelow i before ltac:(lia) Hbefore) as Hb.
    pose proof (Habove (S i) after ltac:(lia) Hafter) as Ha.
    assert (Hfar : ∀ y, y ∈ l → y ≤ before ∨ after ≤ y).
    { intros y [j Hy]%list_elem_of_lookup_1.
      destruct (decide (j ≤ i)%nat).
      - left. by apply (Sorted_lookup_le l j i y before Hs).
      - right. apply (Sorted_lookup_le l (S i) j after y Hs); [lia|done..]. }
    destruct (Z.ltb_spec (after - v) (v - before)); intros [= <-];
      split; intros y Hy; destruct (Hfar y Hy); lia.
Qed.

(** X1.  A member of an ascending list is its own closest value: reading back
    an exposure that is one of the supported values gives that value. *)
Theorem find_closest_exposure_member (l : list Z) (v : Z) :
  Sorted Z.le l → v ∈ l → find_closest_exposure l v = Ok v.
Proof.
  intros Hs Hin.
  destruct (find_closest_exposure_nearest l v Hs) as (r & Hr & _ & Hnear & _).
  { intros ->. by apply elem_of_nil in Hin. }
  pose proof (Hnear v Hin). rewrite Hr. f_equal. lia.
Qed.

Lemma find_closest_exposure_member_witness :
  find_closest_exposure ExpList 12500 = Ok 12500.
Proof.
  apply find_closest_exposure_member.
  - unfold ExpList. repeat constructor; lia.
  - apply (list_elem_of_lookup_2 ExpList 17). reflexivity.
Defined.

(** X3.  On an ascending list the resolver is monotone: a larger query never
    gets a smaller answer. *)
Theorem find_closest_exposure_monotone (l : list Z) (v w rv rw : Z) :
  Sorted Z.le l → v ≤ w →
  find_closest_exposure l v = Ok rv → find_closest_exposure l w = Ok rw →
  rv ≤ rw.
Proof.
  intros Hs Hvw Hv Hw.
  destruct (decide (l = [])) as [->|Hne]; [done|].
  destruct (find_closest_exposure_nearest l v Hs Hne)
    as (r1 & Hr1 & Hin1 & Hnear1 & Htie1).
  destruct (find_closest_exposure_nearest l w Hs Hne)
    as (r2 & Hr2 & Hin2 & Hnear2 & Htie2).
  rewrite Hv in Hr1. rewrite Hw in Hr2. simplify_eq.
  pose proof (Hnear1 r2 Hin2). pose proof (Hnear2 r1 Hin1).
  pose proof (Htie1 r2 Hin2). pose proof (Htie2 r1 Hin1).
  lia.
Qed.

Lemma find_closest_exposure_monotone_witness :
  find_closest_exposure ExpList 450 = Ok 400 ∧
  find_closest_exposure ExpList 451 = Ok 500 ∧ 400 ≤ 500.
Proof.
  split; [reflexivity|]. split; [reflexivity|].
  apply (find_closest_exposure_monotone ExpList 450 451 400 500).
  - unfold ExpList. repeat constructor; lia.
  - lia.
  - reflexivity.
  - reflexivity.
Defined.

Lemma ExpList_bounds (r : Z) : r ∈ ExpList → 250 ≤ r ≤ 33333.
Proof.
  intros Hin.
  assert (Forall (λ y, 250 ≤ y ≤ 33333) ExpList) as Hall.
  { unfold ExpList. repeat constructor; lia. }
  rewrite Forall_forall in Hall. by apply Hall.
Qed.

(** X4.  Whatever exposure time the camera reports, the value [get_MetaData]
    resolves it to against its preset table is one of the 22 presets, between
    250 and 33333, and no preset is nearer to the reported value; a reported
    value that is a preset is resolved to itself. *)
Theorem preset_resolution (v : Z) :
  ∃ r, find_closest_exposure ExpList v = Ok r ∧
       r ∈ ExpList ∧ 250 ≤ r ≤ 33333 ∧
       (∀ y, y ∈ ExpList → Z.abs (r - v) ≤ Z.abs (y - v)) ∧
       (v ∈ ExpList → r = v).
Proof.
  destruct (find_closest_exposure_nearest ExpList v ExpList_sorted)
    as (r & Hr & Hin & Hnear & _); [done|].
  exists r. split; [done|]. split; [done|].
  split; [by apply ExpList_bounds|]. split; [done|].
  intros Hv. pose proof (Hnear v Hv). lia.
Qed.
